(* ===== verification/_CoqProject ===== *)
-Q . S2P
Prelude.v
PyStr.v
PyIO.v
Regex.v
LocRef.v
LocationTable.v
LocationResolver.v
LineAttributor.v
FrameAttributor.v
Attribution.v
WorldEquiv.v
