(* ===== verification/Prelude.v ===== *)
(** * A verification library for proton's IR location attributer

    The program is [src/third_party/proton/proton/attributer.py] (95
    lines of Python).  Given a profiler frame descriptor
    ["<path>:<tag>@<line>"] it opens the Triton GPU IR file ([.ttgir])
    named by [<path>], reads IR line [<line>], finds the inline location
    marker [loc(#locN)] on it, resolves [#locN] through the file's table of
    location definitions ([#locN = loc(<expr>)]), where an [<expr>] may be
    an inlining [callsite(#locA at #locB)], and prints the result with
    quotes removed and colons rewritten.

    ** The program's parts and how they interact

    - Python runtime (not code of the repository).  The [str] methods the
      module calls ([strip], [startswith], [in], [replace], [int]) and the
      exceptions it can raise: file [PyStr.v].
    - Reading a text file: [open(path, 'r')] translates [\r\n] and [\r]
      to [\n] and iterating yields the lines with their line feed
      ([translate_newlines], [split_lines], [py_file_lines]): file
      [PyIO.v].
    - Python's [re] module, the subset the four patterns use: literal
      characters, character classes, greedy single-character repeats
      ([*], [+]), capture groups, [match] (anchored at the start) and
      [search] (leftmost start).  File [Regex.v] is a backtracking matcher
      in continuation-passing style that follows CPython's [sre]
      ([REPEAT_ONE]: count the longest run, then give characters back one
      at a time), with a relational semantics ([accepts]) it refines.
    - The location-reference token [(#loc\d+)] shared by the patterns,
      with a scanner for it: file [LocRef.v].
    - LocationTable: [parse_location_mappings] (lines 6-22) as a left
      fold of [parse_line] (the loop body, lines 15-20) over the file's
      lines, and its pattern (line 13): Module [LocationTable] of file
      [LocationTable.v].
    - LocationResolver: [resolve_loc_reference] (lines 25-39) as
      [resolve_fuel] with fuel [S (length t)], and the callsite pattern
      (line 31): Module [LocationResolver] of [LocationResolver.v].
    - LineAttributor: [extract_loc_reference] (lines 42-50, [None] input
      raises [TypeError] as [re.search(None)] does) and
      [get_source_location_from_line] (lines 53-60): Module
      [LineAttributor] of [LineAttributor.v].
    - FrameAttributor, pure part: [extract_file_and_line] (lines 71-79),
      the loop of [get_line_from_file] ([find_line], lines 65-68) and the
      post-processing of line 94 ([format_location]): Module
      [FrameAttributor] of [FrameAttributor.v].
    - FrameAttributor and LocationTableCache, stateful part: the global
      dict [location_map_cache] (line 3) and the files [open] reads are
      the [world] of the state-and-exception monad [PyM]; [open_read],
      [cache_has], [cache_store] and [cache_lookup] are the reads and
      writes of lines 64, 89-93; [get_line_from_file] (lines 63-68) and
      [attribute_ttgir_frame_up] (lines 82-96) are computations of [PyM],
      step for step in the order of the code.  Every [open] is logged in
      the world: Module [Attribution] of [Attribution.v].
    - Worlds equal up to what the program observes (the lines a file
      reads back, the cache; not the log): Module [WorldEquiv] of
      [WorldEquiv.v], with the [Equivalence] and [Proper] instances.

    The data flow is FrameAttributor -> (path, line number) ->
    get_line_from_file -> LineAttributor -> LocationResolver, with the
    table coming from the cache, filled by LocationTable on a miss.

    ** What the theorems show

    - The models of the Python runtime carry their own lemmas, which the
      program's theorems use but which are not claims about the program:
      the matcher is sound and complete for [accepts] ([re_match_sound],
      [re_match_complete]) and [re_search] finds the leftmost match
      ([re_search_Some]); the lines file iteration yields are well formed
      ([py_file_lines_spec]) and a written file reads back
      ([py_file_lines_written]).  Each of the program's four patterns is
      proved equal to a hand-written scanner ([re_match_loc_pattern],
      [re_match_callsite], [re_search_marker], [re_match_frame]), from
      which the declarative statements below follow.
    - LocationTable: the table is the last definition of each reference
      ([parse_location_mappings_last_wins]), its keys are references and
      its values line-break-free ([parse_location_mappings_wf]), and a
      printed file parses back ([parse_printed_file]).
    - Equivalence with reference definitions: the regex-driven resolver
      equals the non-recursive [resolve_spec]
      ([resolve_loc_reference_equiv]) and the parser equals a
      scanner-driven [parse_location_mappings_ref]
      ([parse_location_mappings_equiv]).
    - LocationResolver: plain references ([resolve_plain]), callsites
      ([resolve_callsite]), the [None] of a malformed callsite
      ([resolve_None_iff]) and termination: fuel 2 is always enough
      ([resolve_fuel_enough]).
    - LineAttributor: the answer of a line with and without a marker
      ([get_source_location_marker], [get_source_location_no_marker]).
    - FrameAttributor: the descriptor parse, both directions
      ([extract_file_and_line_spec], [extract_file_and_line_complete])
      and the colon rewriting ([format_location_spec]).
    - Reading one line: [get_line_from_file] on every branch, the line
      numbers counted from 1 ([get_line_from_file_spec]), and on a file
      written with [\n] or [\r\n] endings ([get_line_from_written_file]).
    - Attribution: the whole call on every branch (not [ttgir], missing
      file, out of range, in range), the cache reused across calls
      ([attribute_twice_parses_once]), the invariant that every cached
      table is the parse of its file along any run of calls
      ([runs_coherent]) and, under it, the refinement of the cached entry
      point by a fresh parse ([attribute_coherent]) and the end-to-end
      answer: the last definition of the line's marker, printed
      ([attribute_last_definition]).  A weaker invariant, every cache
      entry keyed by a [ttgir] path with a well-formed table, holds along
      any run of calls and file changes ([steps_cache_wf]).
    - Errors: a call raises exactly [FileNotFoundError] for a missing
      [ttgir] file and [TypeError] for a line number out of range; the
      [AttributeError] and [KeyError] paths of the code are unreachable
      ([attribute_raises]).
    - Equivalence of worlds (file [WorldEquiv.v]): file systems reading
      back the same lines, and worlds with such file systems and the same
      cache whatever their log of opens, are [Equivalence]s; the entry
      point and the monad are [Proper] for them, so a file's line endings
      do not change an attribution ([attribute_line_endings]).
    - Liveness of the cache: after one call on a file its table stays
      cached along every later run ([attribute_caches_forever]) and the
      file is never parsed again ([attribute_never_reparses]).

    ** Fuel

    [resolve_loc_reference] recurses on the two operands of a callsite,
    which are [#locN] references and never start with [callsite]: the
    recursion is at most one level deep.  The fuel [S (length t)] is at
    least 2 on any text that reaches the callsite branch, and
    [resolve_fuel_enough] shows that every fuel from 2 gives the same
    answer, so the fuel never changes the result.

    ** What the modelling showed

    - Line 94 turns ["x":1:2] into [x_@1_2], not the [x:@1_2] the
      specification states ([format_location_quoted]).
    - A marker's [#locN] is looked up, never resolved further: a
      reference defined as a callsite is printed raw, not as the chain
      [caller -> called] the specification expects
      ([get_source_location_marker]).
    - A malformed callsite gives [None], not ["unknown"]
      ([resolve_None_iff]); a line number out of range raises [TypeError],
      after the table has been cached ([attribute_out_of_range]).
    - The frame pattern cuts the path at the last colon before the tag
      ([extract_file_and_line_colon_tag]); the cache is never invalidated
      ([cache_goes_stale]).

    ** Not modelled

    Text decoding and non-ASCII characters (a file's text is a list of
    ASCII characters, so [UnicodeDecodeError] has no counterpart);
    permission and other I/O errors besides a missing file; the
    parts of [re] the patterns do not use; threads (the program is
    single-threaded and the cache has no guard).  The caller of
    [attribute_ttgir_frame_up], proton's profiler, is not in the
    repository and the specification names it only as an excluded
    collaborator, so no model of it is written: how it walks a stack and
    what it does with an exception are not known.

    This file holds the shared vocabulary: the [str] abbreviation and
    its literal notation (scope [py_scope]), [first_some] (try the
    alternatives in order: the shape of every backtracking choice),
    [span_len] (length of the longest run of characters of a class),
    [downto] and [rfind] (greedy candidate lists and the largest index
    satisfying a test), their lemmas, the hint databases [pyattr] and [pyrw] and the
    tactics [ascii_cases] and [simpl_take_drop]. *)

From Stdlib Require Export Ascii String.
From stdpp Require Export base list gmap strings.

Declare Scope py_scope.
Delimit Scope py_scope with py.

(** Python strings: lists of ASCII characters. *)
Abbreviation str := (list ascii).

Notation "‹ x ›" := (list_ascii_of_string x%string) (format "‹ x ›") : py_scope.

Open Scope py_scope.

Create HintDb pyattr.
Create Rewrite HintDb pyrw.

(** Case analysis on the 256 values of a character: proves facts about
    character classes by evaluation. *)
Ltac ascii_cases x :=
  destruct x as [[] [] [] [] [] [] [] []].

(** Boolean equality of characters. *)
Definition chr_eqb (a b : ascii) : bool := bool_decide (a = b).

Lemma chr_eqb_true a b : chr_eqb a b = true <-> a = b.
Proof. unfold chr_eqb. apply bool_decide_eq_true. Qed.

Lemma chr_eqb_refl a : chr_eqb a a = true.
Proof. by apply chr_eqb_true. Qed.

#[export] Hint Rewrite chr_eqb_refl : pyrw.

(** ** Trying alternatives in order *)

Fixpoint first_some {A B} (f : A -> option B) (l : list A) : option B :=
  match l with
  | [] => None
  | x :: l' => match f x with Some y => Some y | None => first_some f l' end
  end.

Section FirstSome.
Context {A B : Type} (f : A -> option B).

Lemma first_some_Some l y :
  first_some f l = Some y -> exists x, In x l /\ f x = Some y.
Proof.
  induction l as [|x l IH]; simpl; [done|].
  destruct (f x) eqn:E; [intros [= <-]; eauto|].
  intros H. destruct (IH H) as (z & ? & ?). eauto.
Qed.

Lemma first_some_complete l x :
  In x l -> is_Some (f x) -> is_Some (first_some f l).
Proof.
  induction l as [|z l IH]; simpl; [done|].
  intros Hin Hs. destruct (f z) as [y|] eqn:E; [by eexists|].
  destruct Hin as [<- | Hin]; [by rewrite E in Hs|]. auto.
Qed.

Lemma first_some_all_None l :
  Forall (fun x => f x = None) l -> first_some f l = None.
Proof. induction 1 as [|x l Hx _ IH]; simpl; [done|]. by rewrite Hx. Qed.

Lemma first_some_ext (g : A -> option B) l :
  (forall x, In x l -> f x = g x) -> first_some f l = first_some g l.
Proof.
  induction l as [|x l IH]; simpl; intros H; [done|].
  rewrite (H x (or_introl eq_refl)), IH; auto.
Qed.
End FirstSome.

(** ** Runs of characters of a class *)

Fixpoint span_len (p : ascii -> bool) (s : str) : nat :=
  match s with
  | [] => 0
  | x :: s' => if p x then S (span_len p s') else 0
  end.

Section SpanLen.
Context (p : ascii -> bool).

Lemma span_len_le s : span_len p s <= length s.
Proof. induction s as [|x s IH]; simpl; [lia|]. destruct (p x); simpl; lia. Qed.

(** Every character of the run is in the class. *)
Lemma span_len_inside s i x :
  i < span_len p s -> s !! i = Some x -> p x = true.
Proof.
  revert i. induction s as [|y s IH]; intros i; simpl; [lia|].
  destruct (p y) eqn:Ey; [|lia].
  destruct i; simpl; [by intros _ [= <-]|]. intros ?; apply IH; lia.
Qed.

(** The character right after the run is not in the class. *)
Lemma span_len_stop s x :
  s !! span_len p s = Some x -> p x = false.
Proof.
  induction s as [|y s IH]; simpl; [done|].
  destruct (p y) eqn:Ey; simpl; [apply IH|]. by intros [= <-].
Qed.

Lemma span_len_app w s :
  Forall (fun x => p x = true) w -> span_len p (w ++ s) = length w + span_len p s.
Proof. induction 1 as [|x w Hx _ IH]; simpl; [done|]. by rewrite Hx, IH. Qed.

Lemma span_len_take s : Forall (fun x => p x = true) (take (span_len p s) s).
Proof.
  induction s as [|x s IH]; simpl; [constructor|].
  destruct (p x) eqn:E; simpl; constructor; auto.
Qed.

(** A run is at least as long as any prefix of class characters. *)
Lemma span_len_ge w s :
  Forall (fun x => p x = true) w -> length w <= span_len p (w ++ s).
Proof. intros H. rewrite span_len_app by done. lia. Qed.

Lemma span_len_cons_false x s : p x = false -> span_len p (x :: s) = 0.
Proof. simpl. by intros ->. Qed.
End SpanLen.

(** ** Candidate counts of a greedy repeat, and the largest good index *)

(** [downto m n] is [[m; m-1; ...; n]], empty when [m < n]. *)
Fixpoint downto (m n : nat) : list nat :=
  match m with
  | 0 => if Nat.eqb n 0 then [0] else []
  | S m' => if Nat.leb n (S m') then S m' :: downto m' n else []
  end.

Lemma elem_downto m n i : In i (downto m n) <-> n <= i <= m.
Proof.
  induction m as [|m IH]; simpl.
  - destruct (Nat.eqb_spec n 0); simpl; split; intros; try lia; intuition.
  - destruct (Nat.leb_spec n (S m)); simpl; [rewrite IH|]; split; intros; lia.
Qed.

(** [rfind f m] is the largest [i <= m] with [f i], if any. *)
Fixpoint rfind (f : nat -> bool) (m : nat) : option nat :=
  match m with
  | 0 => if f 0 then Some 0 else None
  | S m' => if f (S m') then Some (S m') else rfind f m'
  end.

Lemma rfind_Some f m i :
  rfind f m = Some i -> i <= m /\ f i = true /\ forall j, i < j <= m -> f j = false.
Proof.
  revert i. induction m as [|m IH]; intros i; simpl.
  - destruct (f 0) eqn:E; intros; simplify_eq; split_and!; auto; lia.
  - destruct (f (S m)) eqn:E; intros H; simplify_eq; [split_and!; auto; lia|].
    destruct (IH _ H) as (? & ? & Hj). split_and!; [lia|done|].
    intros j ?. destruct (decide (j = S m)); subst; [done|]. apply Hj; lia.
Qed.

Lemma rfind_None f m : rfind f m = None -> forall j, j <= m -> f j = false.
Proof.
  induction m as [|m IH]; simpl.
  - destruct (f 0) eqn:E; intros; [done|]. by replace j with 0 by lia.
  - destruct (f (S m)) eqn:E; intros H j ?; [done|].
    destruct (decide (j = S m)); subst; [done|]. apply IH; [done|lia].
Qed.

Lemma rfind_all_false f m : (forall j, j <= m -> f j = false) -> rfind f m = None.
Proof.
  induction m as [|m IH]; simpl; intros H.
  - by rewrite H.
  - rewrite H by lia. apply IH. intros; apply H; lia.
Qed.

(** Trying the candidates of a greedy repeat from the longest finds the
    largest index at which the continuation succeeds. *)
Lemma first_some_downto {B} (f : nat -> bool) (g : nat -> B) m n :
  first_some (fun i => if f i then Some (g i) else None) (downto m n)
  = g <$> rfind (fun i => Nat.leb n i && f i) m.
Proof.
  induction m as [|m IH]; simpl.
  - destruct (Nat.eqb_spec n 0); subst; simpl; [by destruct (f 0)|].
    destruct (Nat.leb_spec n 0); [lia|done].
  - destruct (Nat.leb_spec n (S m)); simpl.
    + destruct (f (S m)); simpl; [done|]. apply IH.
    + rewrite rfind_all_false; [done|].
      intros j ?. destruct (Nat.leb_spec n j); [lia|done].
Qed.

(** ** Taking and dropping *)

Lemma take_drop_app (w s : str) : take (length w) (w ++ s) = w /\ drop (length w) (w ++ s) = s.
Proof. split; [apply take_app_length | apply drop_app_length]. Qed.

Ltac simpl_take_drop :=
  repeat first
    [ rewrite take_app_length
    | rewrite drop_app_length
    | rewrite drop_drop
    | rewrite length_app ].

Lemma rfind_ext f g m : (forall i, i <= m -> f i = g i) -> rfind f m = rfind g m.
Proof.
  induction m as [|m IH]; simpl; intros H.
  - by rewrite H.
  - rewrite H by lia. rewrite IH; [done|]. intros; apply H; lia.
Qed.

(** ** Maps built by a loop of inserts: the last insert of a key wins *)

Section LastInsert.
Context {K V : Type} `{Countable K}.

(** The value of the last pair with key [k]. *)
Definition last_value (k : K) (l : list (K * V)) : option V :=
  snd <$> last (filter (fun kv => kv.1 = k) l).

Lemma foldl_insert_lookup (l : list (K * V)) (m0 : gmap K V) k :
  foldl (fun m kv => <[kv.1 := kv.2]> m) m0 l !! k =
  match last_value k l with Some v => Some v | None => m0 !! k end.
Proof.
  induction l as [|[k' v'] l IH] using rev_ind; [done|].
  rewrite foldl_snoc. unfold last_value in *. rewrite filter_app, last_app.
  simpl. rewrite filter_cons, filter_nil. simpl.
  destruct (decide (k' = k)) as [->|Hne]; simpl.
  - by rewrite lookup_insert_eq.
  - by rewrite lookup_insert_ne.
Qed.
End LastInsert.

Lemma last_value_elem {K V} `{Countable K} (k : K) (v : V) l :
  last_value k l = Some v -> (k, v) ∈ l.
Proof.
  unfold last_value. destruct (last _) as [[k' v']|] eqn:E; [|done]. intros [= ->].
  apply last_Some in E as [l' Hl'].
  assert ((k', v) ∈ filter (fun kv => kv.1 = k) l) as Hin by (rewrite Hl'; set_solver).
  apply list_elem_of_filter in Hin as [Hk Hin]. simpl in Hk. by subst.
Qed.

(** A list with an element appended, split around one of its elements. *)
Lemma snoc_eq_app_cons {A} (l pre post : list A) x y :
  l ++ [x] = pre ++ y :: post ->
  (post = [] /\ l = pre /\ x = y) \/
  (exists post', post = post' ++ [x] /\ l = pre ++ y :: post').
Proof.
  destruct post as [|z post _] using rev_ind; intros H.
  - apply app_inj_tail in H as [-> ->]. by left.
  - rewrite app_comm_cons, app_assoc in H. apply app_inj_tail in H as [-> ->]. right. eauto.
Qed.

Lemma last_value_snoc {K V} `{Countable K} (k k' : K) (v' : V) l :
  last_value k (l ++ [(k', v')]) = if decide (k' = k) then Some v' else last_value k l.
Proof.
  unfold last_value. rewrite filter_app, last_app, filter_cons, filter_nil.
  simpl. by destruct (decide (k' = k)).
Qed.

(** [last_value] declaratively: [(k, v)] occurs, and no later pair has
    key [k]. *)
Lemma last_value_Some_iff {K V} `{Countable K} (k : K) (v : V) l :
  last_value k l = Some v <->
  exists pre post, l = pre ++ (k, v) :: post /\ k ∉ post.*1.
Proof.
  induction l as [|[k' v'] l IH] using rev_ind.
  - split; [done|]. intros (pre & post & Hl & _). by destruct pre.
  - rewrite last_value_snoc. destruct (decide (k' = k)) as [->|Hne].
    + split.
      * intros [= ->]. exists l, []. split; [done|]. apply not_elem_of_nil.
      * intros (pre & post & [[-> [_ [= ->]]]|(post' & -> & _)]%snoc_eq_app_cons & Hk); [done|].
        rewrite fmap_app in Hk. set_solver.
    + rewrite IH. split.
      * intros (pre & post & -> & Hk). exists pre, (post ++ [(k', v')]).
        rewrite <- app_assoc. split; [done|]. rewrite fmap_app. set_solver.
      * intros (pre & post & [[_ [_ [= -> _]]]|(post' & -> & Hl)]%snoc_eq_app_cons & Hk); [done|].
        exists pre, post'. rewrite fmap_app in Hk. set_solver.
Qed.

(** [rfind] from its specification. *)
Lemma rfind_intro f m i :
  i <= m -> f i = true -> (forall j, i < j <= m -> f j = false) -> rfind f m = Some i.
Proof.
  induction m as [|m IH]; simpl; intros Hi Hf Hj.
  - replace i with 0 in * by lia. by rewrite Hf.
  - destruct (decide (i = S m)) as [->|Hne]; [by rewrite Hf|].
    rewrite Hj by lia. apply IH; [lia|done|]. intros; apply Hj; lia.
Qed.

(** The double-quote and line-feed characters. *)
Definition dq : ascii := "034"%char.
Definition nl : ascii := "010"%char.
