(* ===== verification/PyStr.v ===== *)
(** * The Python runtime the attributer calls

    The [str] methods used by [attributer.py] ([strip], [startswith], the
    [in] operator, [replace] with and without a count, [int] on a digit
    string, formatting [None] in an f-string), the dict method [get] and
    the exceptions the module can raise.  These are CPython's behaviours
    on ASCII text, written as recursive functions, with the lemmas that
    pin each one down. *)

From S2P Require Import Prelude.
Open Scope py_scope.

(** ** Character classes *)

(** [str.isspace] on ASCII: tab, line feed, vertical tab, form feed,
    carriage return, the four information separators 0x1c-0x1f, and
    space.  CPython's [re] uses the same predicate for [\s] on [str]
    patterns. *)
Definition py_isspace (x : ascii) : bool :=
  let n := nat_of_ascii x in (Nat.leb 9 n && Nat.leb n 13) || (Nat.leb 28 n && Nat.leb n 32).

(** [str.isdecimal] on ASCII, the class of [\d]: ['0'] to ['9']. *)
Definition py_isdigit (x : ascii) : bool :=
  let n := nat_of_ascii x in Nat.leb 48 n && Nat.leb n 57.

(** ** Exceptions *)

Inductive py_exc : Type :=
| TypeError          (** [re.search(None)] *)
| AttributeError     (** [None.replace(...)] *)
| FileNotFoundError  (** [open] of a missing path *)
| KeyError.          (** [d[k]] for a missing key *)

#[export] Instance py_exc_eq_dec : EqDecision py_exc.
Proof. solve_decision. Defined.

Inductive py_res (A : Type) : Type :=
| Ok (a : A)
| Raise (e : py_exc).
Arguments Ok {A} a.
Arguments Raise {A} e.

#[export] Instance py_res_eq_dec {A} `{EqDecision A} : EqDecision (py_res A).
Proof. solve_decision. Defined.

(** ** [str.strip()] *)

Fixpoint lstrip (s : str) : str :=
  match s with
  | [] => []
  | x :: s' => if py_isspace x then lstrip s' else s
  end.

Definition py_strip (s : str) : str := rev (lstrip (rev (lstrip s))).

(** ** [s.startswith(prefix)] and [sub in s] *)

Fixpoint py_startswith (s pre : str) {struct pre} : bool :=
  match pre, s with
  | [], _ => true
  | p :: pre', x :: s' => chr_eqb p x && py_startswith s' pre'
  | _ :: _, [] => false
  end.

Fixpoint py_contains (s sub : str) : bool :=
  py_startswith s sub || match s with [] => false | _ :: s' => py_contains s' sub end.

(** ** [s.replace(old, new, count)] for a one-character [old]

    CPython replaces the leftmost [count] occurrences; a negative count
    (the default, [-1]) means all of them. *)
Fixpoint py_replace (old : ascii) (new : str) (count : Z) (s : str) : str :=
  match s with
  | [] => []
  | x :: s' =>
      if chr_eqb x old then
        if Z.eqb count 0 then s else new ++ py_replace old new (count - 1) s'
      else x :: py_replace old new count s'
  end.

(** ** [int(s)] on a string of ASCII digits (what [\d+] captures) *)

Definition digit_value (x : ascii) : N := N.of_nat (nat_of_ascii x - 48).

Definition py_int (s : str) : N := fold_left (fun acc x => 10 * acc + digit_value x)%N s 0%N.

(** ** An f-string field and [dict.get] *)

(** [f"{v}"] for [v : str | None]. *)
Definition py_format (v : option str) : str :=
  match v with Some s => s | None => ‹"None"› end.

(** [m.get(k, d)]. *)
Definition py_dict_get {V} (m : gmap str V) (k : str) (d : V) : V :=
  match m !! k with Some v => v | None => d end.

(** ** Lemmas *)

Lemma py_startswith_spec s pre :
  py_startswith s pre = true <-> exists rest, s = pre ++ rest.
Proof.
  revert s. induction pre as [|p pre IH]; intros [|x s]; simpl.
  - split; eauto.
  - split; eauto.
  - split; [done|]. by intros [? ?].
  - rewrite andb_true_iff, chr_eqb_true, IH. split.
    + intros [-> [rest ->]]. eauto.
    + intros [rest [= -> ->]]. eauto.
Qed.

Lemma py_startswith_app pre rest : py_startswith (pre ++ rest) pre = true.
Proof. apply py_startswith_spec. eauto. Qed.

Lemma py_contains_spec s sub :
  py_contains s sub = true <-> exists a b, s = a ++ sub ++ b.
Proof.
  induction s as [|x s IH]; cbn [py_contains]; rewrite orb_true_iff, py_startswith_spec.
  - split.
    + intros [[rest ->]|]; [exists [], rest; done|done].
    + intros ([|? a] & b & H); [left; eauto|done].
  - rewrite IH. split.
    + intros [[rest ->]|(a & b & ->)]; [exists [], rest; done|].
      exists (x :: a), b. done.
    + intros ([|y a] & b & H); simpl in H; [left; eauto|].
      injection H as -> ->. right. eauto.
Qed.

(** A string without [old] is left alone. *)
Lemma py_replace_absent old new count s :
  old ∉ s -> py_replace old new count s = s.
Proof.
  induction s as [|x s IH]; simpl; [done|]. rewrite not_elem_of_cons.
  intros [Hx Hs]. destruct (chr_eqb x old) eqn:E.
  - apply chr_eqb_true in E. congruence.
  - by rewrite IH.
Qed.

Lemma py_replace_zero old new s : py_replace old new 0 s = s.
Proof.
  induction s as [|x s IH]; simpl; [done|].
  destruct (chr_eqb x old); [done|]. by rewrite IH.
Qed.

(** [count = 1]: only the first occurrence is replaced. *)
Lemma py_replace_first old new a b :
  old ∉ a -> py_replace old new 1 (a ++ old :: b) = a ++ new ++ b.
Proof.
  induction a as [|x a IH]; simpl; intros Ha.
  - rewrite chr_eqb_refl. simpl. by rewrite py_replace_zero.
  - apply not_elem_of_cons in Ha as [Hx Ha].
    destruct (chr_eqb x old) eqn:E; [apply chr_eqb_true in E; congruence|].
    by rewrite IH.
Qed.

(** A negative count: every occurrence is replaced. *)
Lemma py_replace_all old new count s :
  (count < 0)%Z ->
  py_replace old new count s = mjoin ((fun x => if chr_eqb x old then new else [x]) <$> s).
Proof.
  revert count. induction s as [|x s IH]; intros count Hc; simpl; [done|].
  destruct (chr_eqb x old).
  - rewrite (proj2 (Z.eqb_neq _ _)) by lia. rewrite IH by lia. done.
  - by rewrite IH.
Qed.

Lemma py_replace_all_app old new a b :
  py_replace old new (-1) (a ++ b) = py_replace old new (-1) a ++ py_replace old new (-1) b.
Proof. rewrite !py_replace_all by lia. by rewrite fmap_app, join_app. Qed.

(** After replacing all occurrences by a string without [old], none is left. *)
Lemma py_replace_all_removes old new s :
  old ∉ new -> old ∉ py_replace old new (-1) s.
Proof.
  intros Hn. rewrite py_replace_all by lia.
  induction s as [|x s IH]; simpl; [apply not_elem_of_nil|].
  rewrite elem_of_app. intros [H|H]; [|done].
  destruct (chr_eqb x old) eqn:E; [done|].
  apply list_elem_of_singleton in H as ->. by rewrite chr_eqb_refl in E.
Qed.

(** ** Stripping *)

Lemma lstrip_spec s :
  exists l, s = l ++ lstrip s /\ Forall (fun x => py_isspace x = true) l /\
    (forall x t, lstrip s = x :: t -> py_isspace x = false).
Proof.
  induction s as [|x s (l & Hs & Hl & Hh)]; simpl.
  - exists []. split_and!; [done|constructor|done].
  - destruct (py_isspace x) eqn:E.
    + exists (x :: l). split_and!; [simpl; by f_equal|by constructor|done].
    + exists []. split_and!; [done|constructor|by intros ? ? [= <- _]].
Qed.

Lemma lstrip_app_spaces l s :
  Forall (fun x => py_isspace x = true) l -> lstrip (l ++ s) = lstrip s.
Proof. induction 1 as [|x l Hx _ IH]; simpl; [done|]. by rewrite Hx. Qed.

Lemma lstrip_nonspace x s : py_isspace x = false -> lstrip (x :: s) = x :: s.
Proof. simpl. by intros ->. Qed.

(** [strip] of a line that neither starts nor ends with whitespace is the
    line itself. *)
Lemma py_strip_id s :
  (forall x t, s = x :: t -> py_isspace x = false) ->
  (forall x t, s = t ++ [x] -> py_isspace x = false) ->
  py_strip s = s.
Proof.
  intros Hh Ht. unfold py_strip.
  destruct s as [|x s]; [done|]. rewrite lstrip_nonspace by (by apply (Hh x s)).
  destruct (rev (x :: s)) as [|y r] eqn:Er.
  { apply (f_equal length) in Er. rewrite length_rev in Er. done. }
  rewrite lstrip_nonspace.
  - rewrite <- Er. apply rev_involutive.
  - apply (Ht y (rev r)). rewrite <- (rev_involutive (x :: s)), Er. done.
Qed.

(** [int] of a digit string. *)
Lemma py_int_snoc s x : py_int (s ++ [x]) = (10 * py_int s + digit_value x)%N.
Proof. unfold py_int. by rewrite fold_left_app. Qed.

(** [strip] removes the whitespace around a text that starts and ends
    with a non-space character. *)
Lemma py_strip_pad ws1 s ws2 :
  Forall (fun x => py_isspace x = true) ws1 ->
  Forall (fun x => py_isspace x = true) ws2 ->
  (forall x t, s = x :: t -> py_isspace x = false) ->
  (forall x t, s = t ++ [x] -> py_isspace x = false) ->
  py_strip (ws1 ++ s ++ ws2) = s.
Proof.
  intros H1 H2 Hh Ht. unfold py_strip. rewrite lstrip_app_spaces by done.
  destruct s as [|x s].
  { simpl. rewrite <- (app_nil_r ws2), lstrip_app_spaces by done. done. }
  rewrite <- app_comm_cons, lstrip_nonspace by (by apply (Hh x s)).
  rewrite app_comm_cons, rev_app_distr, lstrip_app_spaces by (by apply Forall_rev).
  destruct (rev (x :: s)) as [|y r] eqn:Er.
  { apply (f_equal length) in Er. rewrite length_rev in Er. done. }
  rewrite lstrip_nonspace, <- Er; [apply rev_involutive|].
  apply (Ht y (rev r)). rewrite <- (rev_involutive (x :: s)), Er. done.
Qed.

Lemma lstrip_app b s :
  lstrip (b ++ s) = match lstrip b with [] => lstrip s | l => l ++ s end.
Proof.
  induction b as [|x b IH]; [done|]. cbn [app lstrip].
  destruct (py_isspace x); [done|]. done.
Qed.

(** [strip] ignores a trailing whitespace character, such as the line
    feed a file iterator leaves on a line. *)
Lemma py_strip_snoc_space b x : py_isspace x = true -> py_strip (b ++ [x]) = py_strip b.
Proof.
  intros Hx. unfold py_strip. rewrite lstrip_app.
  destruct (lstrip b) as [|y l] eqn:E.
  - cbn [lstrip]. by rewrite Hx.
  - rewrite rev_app_distr. cbn [rev app lstrip]. by rewrite Hx.
Qed.

(** Truth value of a [str | None] in an [if]: a non-empty string. *)
Definition py_truthy (v : option str) : bool :=
  match v with Some (_ :: _) => true | _ => false end.

Lemma py_startswith_single x s y : py_startswith (x :: s) [y] = chr_eqb y x.
Proof. simpl. apply andb_true_r. Qed.
