(* ===== verification/PyIO.v ===== *)
(** * Reading a text file: [open(path, 'r')] and iterating over it

    [attributer.py] reads files twice: [get_line_from_file] iterates over
    [open(filename, 'r')] with [enumerate] (lines 64-66) and
    [parse_location_mappings] iterates over [open(file_path, 'r')]
    (lines 90-91, 15).  A file opened in text mode with the default
    [newline=None] translates every [\r\n] and every lone [\r] to [\n]
    ("universal newlines"), and iterating over it yields the lines, each
    with its [\n], the last one without it when the file does not end in a
    line break.  [translate_newlines] is the translation,
    [split_lines] the iteration, [py_file_lines] their composition: what
    the loops of the program see of a file whose text is [content].

    Decoding is not modelled: the text is a list of ASCII characters (the
    bytes of an ASCII file); a non-UTF-8 file, on which Python raises
    [UnicodeDecodeError], has no counterpart here. *)

From S2P Require Import Prelude PyStr.
Open Scope py_scope.

(** Carriage return. *)
Definition cr : ascii := "013"%char.

(** ** Universal newlines *)

Fixpoint translate_newlines (s : str) : str :=
  match s with
  | [] => []
  | x :: s' =>
      if chr_eqb x cr then
        match s' with
        | y :: s'' => if chr_eqb y nl then nl :: translate_newlines s'' else nl :: translate_newlines s'
        | [] => [nl]
        end
      else x :: translate_newlines s'
  end.

(** ** Iteration: the lines, each with its line feed *)

Fixpoint split_lines (s : str) : list str :=
  match s with
  | [] => []
  | x :: s' =>
      if chr_eqb x nl then [x] :: split_lines s'
      else match split_lines s' with
           | [] => [[x]]
           | l :: ls => (x :: l) :: ls
           end
  end.

(** [for line in open(path, 'r')] over a file whose text is [content]. *)
Definition py_file_lines (content : str) : list str := split_lines (translate_newlines content).

(** The shape of what iteration yields: lines ending in a line feed and
    without another one, then at most one last line without it. *)
Inductive lines_wf : list str -> Prop :=
| lines_wf_nil : lines_wf []
| lines_wf_last b : b <> [] -> nl ∉ b -> lines_wf [b]
| lines_wf_cons b ls : nl ∉ b -> lines_wf ls -> lines_wf ((b ++ [nl]) :: ls).

#[export] Hint Constructors lines_wf : pyattr.

(** ** Lemmas *)

Lemma nl_neq_cr : nl <> cr.
Proof. done. Qed.

Lemma chr_eqb_false x y : x <> y -> chr_eqb x y = false.
Proof. intros H. destruct (chr_eqb x y) eqn:E; [by apply chr_eqb_true in E|done]. Qed.

Lemma split_lines_join s : mjoin (split_lines s) = s.
Proof.
  induction s as [|x s IH]; cbn [split_lines]; [done|].
  destruct (chr_eqb x nl) eqn:E.
  - apply chr_eqb_true in E as ->. simpl. by rewrite IH.
  - destruct (split_lines s) as [|l ls]; simpl in *; by rewrite <- IH.
Qed.

Lemma split_lines_wf s : lines_wf (split_lines s).
Proof.
  induction s as [|x s IH]; cbn [split_lines]; [constructor|].
  destruct (chr_eqb x nl) eqn:E.
  - apply chr_eqb_true in E as ->. apply (lines_wf_cons []); [set_solver|done].
  - assert (x <> nl) as Hx by (intros ->; by rewrite chr_eqb_refl in E).
    destruct (split_lines s) as [|l ls]; [constructor; set_solver|].
    inversion IH as [|b Hb Hnl|b ls' Hnl Hls]; subst.
    + constructor; set_solver.
    + rewrite app_comm_cons. constructor; [set_solver|done].
Qed.

(** A line ending in a line feed, and a last line without one, read back. *)
Lemma split_lines_line b s : nl ∉ b -> split_lines (b ++ nl :: s) = (b ++ [nl]) :: split_lines s.
Proof.
  induction b as [|x b IH]; intros Hb; cbn [split_lines app].
  - by rewrite chr_eqb_refl.
  - apply not_elem_of_cons in Hb as [Hx Hb].
    rewrite chr_eqb_false by done. change (b ++ nl :: s) with (b ++ nl :: s). by rewrite IH.
Qed.

Lemma split_lines_last b : b <> [] -> nl ∉ b -> split_lines b = [b].
Proof.
  induction b as [|x [|y b] IH]; intros Hne Hb; [done| |].
  - apply not_elem_of_cons in Hb as [Hx _]. cbn. by rewrite chr_eqb_false.
  - apply not_elem_of_cons in Hb as [Hx Hb]. cbn [split_lines].
    rewrite chr_eqb_false by done. cbn [split_lines] in IH. by rewrite IH.
Qed.

(** Iteration inverts the concatenation of well-formed lines. *)
Lemma split_lines_mjoin ls : lines_wf ls -> split_lines (mjoin ls) = ls.
Proof.
  induction 1 as [|b Hne Hb|b ls Hb _ IH].
  - done.
  - simpl. rewrite app_nil_r. by apply split_lines_last.
  - simpl. rewrite <- app_assoc. simpl. by rewrite split_lines_line, IH.
Qed.

Lemma translate_newlines_absent s : cr ∉ s -> translate_newlines s = s.
Proof.
  induction s as [|x s IH]; intros Hs; [done|]. apply not_elem_of_cons in Hs as [Hx Hs].
  cbn [translate_newlines]. rewrite chr_eqb_false by done. by rewrite IH.
Qed.

Lemma translate_newlines_app b s : cr ∉ b -> translate_newlines (b ++ s) = b ++ translate_newlines s.
Proof.
  induction b as [|x b IH]; intros Hb; [done|]. apply not_elem_of_cons in Hb as [Hx Hb].
  cbn [translate_newlines app]. rewrite chr_eqb_false by done. by rewrite IH.
Qed.

Lemma translate_newlines_crlf s : translate_newlines (cr :: nl :: s) = nl :: translate_newlines s.
Proof. cbn [translate_newlines]. by rewrite chr_eqb_refl. Qed.

Lemma translate_newlines_lf s : translate_newlines (nl :: s) = nl :: translate_newlines s.
Proof. cbn [translate_newlines]. by rewrite chr_eqb_false. Qed.

Lemma translate_newlines_no_cr s : cr ∉ translate_newlines s.
Proof.
  induction s as [s IH] using (induction_ltof1 _ length). destruct s as [|x s]; [set_solver|].
  cbn [translate_newlines]. destruct (chr_eqb x cr) eqn:E.
  - destruct s as [|y s]; [set_solver|]. destruct (chr_eqb y nl).
    + apply not_elem_of_cons. split; [done|]. apply IH. unfold ltof. simpl. lia.
    + apply not_elem_of_cons. split; [done|]. apply IH. unfold ltof. simpl. lia.
  - apply not_elem_of_cons. split; [intros <-; revert E; by vm_compute|].
    apply IH. unfold ltof. simpl. lia.
Qed.

Lemma mjoin_cons {A} (x : list A) (ls : list (list A)) : mjoin (x :: ls) = x ++ mjoin ls.
Proof. done. Qed.

Lemma elem_of_mjoin_line {A} (x : A) (l : list A) (ls : list (list A)) : l ∈ ls -> x ∈ l -> x ∈ mjoin ls.
Proof. intros Hl Hx. apply list_elem_of_join. eauto. Qed.

(** ** What the loops see *)

(** Iterating over a text file yields well-formed lines (each ends in
    a line feed and has no other, except a last line without one), without
    a carriage return, and together they are the file's text with its line
    breaks translated. *)
Theorem py_file_lines_spec content :
  lines_wf (py_file_lines content) /\
  Forall (fun l => cr ∉ l) (py_file_lines content) /\
  mjoin (py_file_lines content) = translate_newlines content.
Proof.
  unfold py_file_lines. split_and!; [apply split_lines_wf| |apply split_lines_join].
  apply Forall_forall. intros l Hl Hcr. apply (translate_newlines_no_cr content).
  rewrite <- split_lines_join. by apply (elem_of_mjoin_line _ l).
Qed.

(** A file written line by line, each line ended by [\n] or each by
    [\r\n], is read back as those lines ended by [\n]: the loops of the
    program see the same lines whatever the line endings. *)
Definition write_lines (ending : str) (ls : list str) : str := mjoin ((fun b => b ++ ending) <$> ls).

Lemma write_lines_translate ending ls :
  (ending = [nl] \/ ending = [cr; nl]) -> Forall (fun b => cr ∉ b) ls ->
  translate_newlines (write_lines ending ls) = write_lines [nl] ls.
Proof.
  intros He. induction 1 as [|b ls Hb _ IH]; [done|]. unfold write_lines in *.
  rewrite !fmap_cons, !mjoin_cons, <- !app_assoc, translate_newlines_app by done. f_equal.
  destruct He as [-> | ->]; cbn [app];
    [rewrite translate_newlines_lf|rewrite translate_newlines_crlf]; by rewrite IH.
Qed.

(** Lines ended by [\n] are iterated back as written. *)
Lemma split_written_lines ls :
  Forall (fun b => nl ∉ b) ls -> split_lines (write_lines [nl] ls) = (fun b => b ++ [nl]) <$> ls.
Proof.
  intros Hls. apply split_lines_mjoin.
  induction Hls as [|b ls Hb _ IH]; simpl; [constructor|]. by constructor.
Qed.

(** Reading back a written file: lines [b] without line break or
    carriage return, each written with [\n] or each with [\r\n], are
    iterated as [b ++ \n]. *)
Theorem py_file_lines_written ending ls :
  (ending = [nl] \/ ending = [cr; nl]) ->
  Forall (fun b => nl ∉ b /\ cr ∉ b) ls ->
  py_file_lines (write_lines ending ls) = (fun b => b ++ [nl]) <$> ls.
Proof.
  intros He Hls. unfold py_file_lines.
  rewrite write_lines_translate by (done || (eapply Forall_impl; [done|]; by intros ? [_ ?])).
  apply split_written_lines. eapply Forall_impl; [done|]. by intros ? [? _].
Qed.

(** ** Examples *)

(** A lone [\r] ends a line too, and a last line without a break is kept. *)
Example py_file_lines_mixed :
  py_file_lines (‹"a"› ++ [cr] ++ ‹"b"› ++ [cr; nl] ++ ‹"c"›) = [‹"a"› ++ [nl]; ‹"b"› ++ [nl]; ‹"c"›].
Proof. vm_compute. reflexivity. Qed.
