(* ===== verification/Regex.v ===== *)
(** * Python's [re]: the subset the attributer's four patterns use

    Syntax: the empty pattern, one-character classes ([#], [\d], [\s],
    [.], [[^@]], a literal character), concatenation, the greedy repeat of
    a character class with a minimum ([x*] is [Rep 0], [x+] is [Rep 1]),
    and numbered capture groups.

    [mtch] is a backtracking matcher in continuation-passing style, the
    way CPython's [sre] runs these patterns: a concatenation runs its
    left part with a continuation that runs the right part; a greedy
    single-character repeat ([REPEAT_ONE] in [sre]) counts the longest
    run of class characters and then tries the continuation after [m],
    [m-1], ..., [min] of them; a group records the text its body
    consumed.  [re_match] is [pattern.match] (anchored at the start, not
    at the end) and [re_search] is [pattern.search] (the leftmost start
    that matches).

    [accepts] is the relational semantics of the syntax (which words a
    pattern matches, with which captures).  The matcher refines it:
    [mtch_sound] (every answer is a match of the relation) and
    [mtch_complete] (if the relation has a match the matcher answers).
    The lemmas at the end compute [mtch] on the shapes the patterns are
    built from: a literal, and a greedy repeat whose continuation fails on
    a class character (so the run is taken whole). *)

From S2P Require Import Prelude PyStr.
Open Scope py_scope.

(** ** Syntax *)

Inductive regex : Type :=
| Eps
| Cls (p : ascii -> bool)
| Cat (r1 r2 : regex)
| Rep (min : nat) (p : ascii -> bool)
| Grp (g : nat) (r : regex).

Declare Scope regex_scope.
Delimit Scope regex_scope with re.
Notation "r1 ⋅ r2" := (Cat r1 r2) (at level 41, right associativity) : regex_scope.
Open Scope regex_scope.

(** A literal string: one literal character after the other. *)
Fixpoint lit (l : str) : regex :=
  match l with
  | [] => Eps
  | x :: l' => Cls (chr_eqb x) ⋅ lit l'
  end.

(** The character classes of the patterns. *)
Definition re_digit : ascii -> bool := py_isdigit.          (** [\d] *)
Definition re_space : ascii -> bool := py_isspace.          (** [\s] *)
Definition re_dot (x : ascii) : bool := negb (chr_eqb x "010"%char).  (** [.] *)
Definition re_not (y : ascii) (x : ascii) : bool := negb (chr_eqb x y). (** [[^y]] *)

(** ** Captures *)

(** The captures of a match, the most recent first. *)
Abbreviation caps := (list (nat * str)).

Fixpoint group (c : caps) (g : nat) : option str :=
  match c with
  | [] => None
  | (g', w) :: c' => if Nat.eqb g' g then Some w else group c' g
  end.

(** [m.group(g)] of a match in which group [g] took part. *)
Definition mgroup (c : caps) (g : nat) : str := default [] (group c g).

(** ** The matcher *)

Fixpoint mtch (r : regex) (s : str) (c : caps) (k : str -> caps -> option caps)
  : option caps :=
  match r with
  | Eps => k s c
  | Cls p => match s with x :: s' => if p x then k s' c else None | [] => None end
  | Cat r1 r2 => mtch r1 s c (fun s' c' => mtch r2 s' c' k)
  | Rep n p => first_some (fun i => k (drop i s) c) (downto (span_len p s) n)
  | Grp g r => mtch r s c (fun s' c' => k s' ((g, take (length s - length s') s) :: c'))
  end.

(** [pattern.match(s)]: a match starting at the first character. *)
Definition re_match (r : regex) (s : str) : option caps := mtch r s [] (fun _ c => Some c).

(** [pattern.search(s)]: the first start position with a match. *)
Fixpoint re_search (r : regex) (s : str) : option caps :=
  match re_match r s with
  | Some c => Some c
  | None => match s with [] => None | _ :: s' => re_search r s' end
  end.

(** ** Relational semantics *)

Inductive accepts : regex -> str -> caps -> caps -> Prop :=
| acc_eps c : accepts Eps [] c c
| acc_cls p x c : p x = true -> accepts (Cls p) [x] c c
| acc_cat r1 r2 w1 w2 c c1 c2 :
    accepts r1 w1 c c1 -> accepts r2 w2 c1 c2 -> accepts (r1 ⋅ r2) (w1 ++ w2) c c2
| acc_rep n p w c :
    n <= length w -> Forall (fun x => p x = true) w -> accepts (Rep n p) w c c
| acc_grp g r w c c' : accepts r w c c' -> accepts (Grp g r) w c ((g, w) :: c').

#[export] Hint Constructors accepts : pyattr.

(** Whether a pattern matches the empty word, and which characters can
    start a non-empty match. *)
Fixpoint nullable (r : regex) : bool :=
  match r with
  | Eps => true
  | Cls _ => false
  | Cat r1 r2 => nullable r1 && nullable r2
  | Rep n _ => Nat.eqb n 0
  | Grp _ r => nullable r
  end.

Fixpoint first (r : regex) (x : ascii) : bool :=
  match r with
  | Eps => false
  | Cls p => p x
  | Cat r1 r2 => first r1 x || (nullable r1 && first r2 x)
  | Rep _ p => p x
  | Grp _ r => first r x
  end.

(** ** The matcher refines the relation *)

Lemma downto_head m n :
  n <= m -> exists l, downto m n = m :: l /\ forall i, In i l -> n <= i < m.
Proof.
  destruct m as [|m]; simpl; intros Hn.
  - replace n with 0 by lia. exists []. by split.
  - destruct (Nat.leb_spec n (S m)); [|lia]. exists (downto m n).
    split; [done|]. intros i Hi%elem_downto. lia.
Qed.

Lemma downto_nil m n : m < n -> downto m n = [].
Proof.
  intros H. destruct (downto m n) as [|i l] eqn:E; [done|].
  assert (In i (downto m n)) as Hi%elem_downto by (rewrite E; left; done). lia.
Qed.

(** The captured text of a group is the part of the input consumed. *)
Lemma take_consumed (w s : str) : take (length (w ++ s) - length s) (w ++ s) = w.
Proof. rewrite length_app, Nat.add_sub. apply take_app_length. Qed.

Lemma forall_take_span p s i :
  i <= span_len p s -> Forall (fun x => p x = true) (take i s).
Proof.
  intros Hi. apply Forall_lookup_2. intros j x Hj.
  rewrite lookup_take_Some in Hj. destruct Hj as [Hj ?].
  apply (span_len_inside p s j x); [lia|done].
Qed.

Theorem mtch_sound r : forall s c k res,
  mtch r s c k = Some res ->
  exists w s' c', s = w ++ s' /\ accepts r w c c' /\ k s' c' = Some res.
Proof.
  induction r as [|p|r1 IH1 r2 IH2|n p|g r IH]; simpl; intros s c k res H.
  - exists [], s, c. eauto with pyattr.
  - destruct s as [|x s]; [done|]. destruct (p x) eqn:Ep; [|done].
    exists [x], s, c. eauto with pyattr.
  - destruct (IH1 _ _ _ _ H) as (w1 & s1 & c1 & -> & H1 & Hk).
    destruct (IH2 _ _ _ _ Hk) as (w2 & s2 & c2 & -> & H2 & Hk2).
    exists (w1 ++ w2), s2, c2. rewrite app_assoc. eauto with pyattr.
  - destruct (first_some_Some _ _ _ H) as (i & Hi%elem_downto & Hk).
    exists (take i s), (drop i s), c. split_and!; [by rewrite take_drop| |done].
    pose proof (span_len_le p s). constructor.
    + rewrite length_take. lia.
    + apply forall_take_span. lia.
  - destruct (IH _ _ _ _ H) as (w & s' & c' & -> & Hw & Hk).
    rewrite take_consumed in Hk. exists w, s', ((g, w) :: c'). eauto with pyattr.
Qed.

Theorem mtch_complete r w c c' :
  accepts r w c c' -> forall s k, is_Some (k s c') -> is_Some (mtch r (w ++ s) c k).
Proof.
  induction 1 as [c|p x c Hp|r1 r2 w1 w2 c c1 c2 _ IH1 _ IH2|n p w c Hn Hw|g r w c c' _ IH];
    intros s k Hk; simpl.
  - done.
  - by rewrite Hp.
  - rewrite <- app_assoc. apply IH1. by apply IH2.
  - apply (first_some_complete _ _ (length w)).
    + apply elem_downto. split; [done|]. by apply span_len_ge.
    + by rewrite drop_app_length.
  - apply IH. by rewrite take_consumed.
Qed.

(** [pattern.match] answers only with a real match: a prefix of the
    subject that the pattern accepts, with the captures the relation
    gives. *)
Corollary re_match_sound r s c :
  re_match r s = Some c -> exists w s', s = w ++ s' /\ accepts r w [] c.
Proof.
  intros (w & s' & c' & -> & Hw & [= <-])%mtch_sound. eauto.
Qed.

(** [pattern.match] finds a match whenever some prefix of the subject is
    accepted by the pattern: backtracking never misses one. *)
Corollary re_match_complete r w s c :
  accepts r w [] c -> is_Some (re_match r (w ++ s)).
Proof. intros H. by apply (mtch_complete _ _ _ _ H). Qed.

(** [search] answers with the match at the leftmost start position that
    has one. *)
Lemma re_search_Some r s c :
  re_search r s = Some c ->
  exists j, j <= length s /\ re_match r (drop j s) = Some c /\
    forall i, i < j -> re_match r (drop i s) = None.
Proof.
  induction s as [|x s IH]; simpl.
  - destruct (re_match r []) eqn:E; intros H; [|done]. simplify_eq.
    exists 0. split_and!; [lia|done|lia].
  - destruct (re_match r (x :: s)) eqn:E; intros H.
    + simplify_eq. exists 0. split_and!; [lia|done|lia].
    + destruct (IH H) as (j & Hj & Hm & Hl). exists (S j). split_and!; [simpl; lia|done|].
      intros [|i] Hi; [done|]. apply Hl. lia.
Qed.

Lemma re_search_None r s :
  re_search r s = None -> forall j, j <= length s -> re_match r (drop j s) = None.
Proof.
  induction s as [|x s IH]; simpl.
  - destruct (re_match r []) eqn:E; intros H j Hj; [done|]. by replace j with 0 by lia.
  - destruct (re_match r (x :: s)) eqn:E; intros H [|j] Hj; [done|done|done|].
    apply IH; [done|lia].
Qed.

(** ** What the matcher computes on the shapes of the patterns *)

Lemma mtch_cat r1 r2 s c k :
  mtch (r1 ⋅ r2) s c k = mtch r1 s c (fun s' c' => mtch r2 s' c' k).
Proof. done. Qed.

Lemma mtch_grp g r s c k :
  mtch (Grp g r) s c k = mtch r s c (fun s' c' => k s' ((g, take (length s - length s') s) :: c')).
Proof. done. Qed.

Lemma mtch_rep n p s c k :
  mtch (Rep n p) s c k = first_some (fun i => k (drop i s) c) (downto (span_len p s) n).
Proof. done. Qed.

(** A literal is a prefix test. *)
Lemma mtch_lit l s c k :
  mtch (lit l) s c k = if py_startswith s l then k (drop (length l) s) c else None.
Proof.
  revert s. induction l as [|x l IH]; intros s; simpl; [done|].
  destruct s as [|y s]; simpl; [done|].
  destruct (chr_eqb x y); simpl; [apply IH|done].
Qed.

(** A pattern fails on an input starting with a character it can neither
    start with nor skip. *)
Lemma accepts_first_nullable r w c c' :
  accepts r w c c' ->
  (w = [] -> nullable r = true) /\ (forall x w', w = x :: w' -> first r x = true).
Proof.
  induction 1 as [c|p x c Hp|r1 r2 w1 w2 c c1 c2 _ [N1 F1] _ [N2 F2]|n p w c Hn Hw|g r w c c' _ IH];
    simpl.
  - split; [done|]. by intros ? ? ?.
  - split; [done|]. by intros ? ? [= -> _].
  - split.
    + intros [-> ->]%app_eq_nil. by rewrite N1, N2.
    + intros x w' Hxw. destruct w1 as [|y w1]; simpl in Hxw.
      * rewrite N1, (F2 x w'); [|done..]. apply orb_true_r.
      * injection Hxw as -> _. by rewrite (F1 x w1).
  - split.
    + intros ->. simpl in Hn. apply Nat.eqb_eq. lia.
    + intros x w' ->. by inversion Hw.
  - exact IH.
Qed.

Lemma mtch_fails r x s c k :
  first r x = false -> nullable r = false -> mtch r (x :: s) c k = None.
Proof.
  intros Hf Hn. destruct (mtch r (x :: s) c k) eqn:E; [|done].
  destruct (mtch_sound _ _ _ _ _ E) as (w & s' & c' & Hs & Hw & _).
  destruct (accepts_first_nullable _ _ _ _ Hw) as [N F].
  destruct w as [|y w]; simpl in Hs.
  - subst. by rewrite N in Hn.
  - injection Hs as Hxy _. subst y. by rewrite (F x w) in Hf.
Qed.

(** Python's greedy repeat of a class gives characters back only when the
    continuation fails; if the continuation fails on every class
    character, the run is taken whole (or the match fails). *)
Lemma mtch_rep_max n p s c k :
  (forall x s' c', p x = true -> k (x :: s') c' = None) ->
  mtch (Rep n p) s c k =
    if Nat.leb n (span_len p s) then k (drop (span_len p s) s) c else None.
Proof.
  intros Hk. simpl. destruct (Nat.leb_spec n (span_len p s)) as [H|H].
  - destruct (downto_head _ _ H) as (l & -> & Hl). simpl.
    destruct (k (drop (span_len p s) s) c); [done|].
    apply first_some_all_None, Forall_forall. intros i Hi%list_elem_of_In%Hl.
    pose proof (span_len_le p s).
    destruct (lookup_lt_is_Some_2 s i) as [x Hx]; [lia|].
    rewrite (drop_S _ _ _ Hx). apply Hk. apply (span_len_inside p s i); [lia|done].
  - by rewrite downto_nil.
Qed.

(** When the continuation accepts after the whole run, that is the answer. *)
Lemma mtch_rep_whole n p s c k res :
  n <= span_len p s -> k (drop (span_len p s) s) c = Some res ->
  mtch (Rep n p) s c k = Some res.
Proof.
  intros Hn Hk. simpl. destruct (downto_head _ _ Hn) as (l & -> & _). simpl. by rewrite Hk.
Qed.

(** The two shapes every pattern of the attributer is a chain of. *)
Lemma mtch_lit_cat l r s c k :
  mtch (lit l ⋅ r) s c k = if py_startswith s l then mtch r (drop (length l) s) c k else None.
Proof. by rewrite mtch_cat, mtch_lit. Qed.

Lemma mtch_rep_cat n p r s c k :
  (forall x, p x = true -> first r x = false) -> nullable r = false ->
  mtch (Rep n p ⋅ r) s c k =
    if Nat.leb n (span_len p s) then mtch r (drop (span_len p s) s) c k else None.
Proof.
  intros Hf Hn. rewrite mtch_cat. apply mtch_rep_max.
  intros x s' c' Hx. apply mtch_fails; auto.
Qed.

(** Side conditions of [mtch_rep_cat] on concrete patterns: the class and
    the first characters of the rest are disjoint. *)
Ltac classes_disjoint :=
  let x := fresh "x" in let Hx := fresh "Hx" in
  intros x Hx; ascii_cases x; first [discriminate Hx | reflexivity].

(** A group [.*] followed by a one-character literal and the end of the
    pattern: the group takes the longest prefix of the run of class
    characters that the literal follows. *)
Lemma mtch_greedy_upto g p y t c :
  mtch (Grp g (Rep 0 p) ⋅ lit [y]) t c (fun _ c' => Some c') =
  (fun j => (g, take j t) :: c) <$> rfind (fun i => py_startswith (drop i t) [y]) (span_len p t).
Proof.
  rewrite mtch_cat, mtch_grp. cbn [mtch].
  pose proof (span_len_le p t) as Hle.
  rewrite (first_some_ext _
    (fun i => if py_startswith (drop i t) [y] then Some ((g, take i t) :: c) else None)).
  - by rewrite first_some_downto.
  - intros i Hi%elem_downto. rewrite mtch_lit, length_drop.
    by replace (length t - (length t - i)) with i by lia.
Qed.

(** A group of a greedy repeat that ends the pattern takes the whole run. *)
Lemma mtch_grp_rep_final g n p s c :
  mtch (Grp g (Rep n p)) s c (fun _ c' => Some c') =
  if Nat.leb n (span_len p s) then Some ((g, take (span_len p s) s) :: c) else None.
Proof.
  rewrite mtch_grp. destruct (Nat.leb_spec n (span_len p s)) as [H|H].
  - erewrite mtch_rep_whole; [|done|done]. pose proof (span_len_le p s).
    rewrite length_drop. do 4 f_equal. lia.
  - cbn [mtch]. by rewrite downto_nil.
Qed.

