(* ===== verification/LocRef.v ===== *)
(** * Location references: the token [#loc<digits>]

    Three of the four patterns of [attributer.py] capture a location
    reference with the group [(#loc\d+)] (lines 13, 31 and 46).  This file
    defines that group once ([loc_ref_re]), the scanner it amounts to
    ([scan_ref]: the literal [#loc], then the whole run of digits, at
    least one), the lemma that computes the matcher on it, and the
    declarative description of what it accepts: the spec's
    LocationReference, [#loc] followed by digits. *)

From S2P Require Import Prelude PyStr Regex.
Open Scope py_scope.
Open Scope regex_scope.

(** [(#loc\d+)] as capture group [g]. *)
Definition loc_ref_re (g : nat) : regex := Grp g (lit ‹"#loc"› ⋅ Rep 1 re_digit).

(** The reference at the start of [s] and what follows it. *)
Definition scan_ref (s : str) : option (str * str) :=
  if py_startswith s ‹"#loc"› then
    let d := span_len re_digit (drop 4 s) in
    if Nat.leb 1 d then Some (take (4 + d) s, drop (4 + d) s) else None
  else None.

(** A location reference: [#loc] and one or more digits. *)
Definition is_loc_ref (r : str) : Prop :=
  exists ds, r = ‹"#loc"› ++ ds /\ ds <> [] /\ Forall (fun x => re_digit x = true) ds.

Lemma startswith_length s l : py_startswith s l = true -> length l <= length s.
Proof. intros [rest ->]%py_startswith_spec. rewrite length_app. lia. Qed.

Lemma mtch_loc_ref g r s c k :
  (forall x, re_digit x = true -> first r x = false) -> nullable r = false ->
  mtch (loc_ref_re g ⋅ r) s c k =
    match scan_ref s with
    | Some (ref, rest) => mtch r rest ((g, ref) :: c) k
    | None => None
    end.
Proof.
  intros Hf Hn. unfold loc_ref_re, scan_ref. cbv zeta.
  rewrite mtch_cat, mtch_grp, mtch_lit_cat.
  destruct (py_startswith s ‹"#loc"›) eqn:Hs; [|done].
  rewrite mtch_rep_max.
  2:{ intros x s' c' Hx. apply mtch_fails; [by apply Hf|done]. }
  change (length ‹"#loc"›) with 4.
  destruct (Nat.leb_spec 1 (span_len re_digit (drop 4 s))) as [Hd|]; [|done].
  apply startswith_length in Hs. simpl in Hs.
  pose proof (span_len_le re_digit (drop 4 s)) as Hle. rewrite length_drop in Hle.
  rewrite drop_drop, length_drop.
  by replace (length s - (length s - (4 + span_len re_digit (drop 4 s)))) with (4 + span_len re_digit (drop 4 s)) by lia.
Qed.

(** A run of class characters stops where the class does. *)
Lemma span_len_maximal p w rest :
  Forall (fun x => p x = true) w ->
  (forall x rest', rest = x :: rest' -> p x = false) ->
  span_len p (w ++ rest) = length w.
Proof.
  intros Hw Hr. rewrite span_len_app by done.
  destruct rest as [|x rest']; simpl; [lia|]. by rewrite (Hr x rest').
Qed.

(** What [scan_ref] accepts is exactly a maximal location reference. *)
Lemma scan_ref_spec s ref rest :
  scan_ref s = Some (ref, rest) <->
  s = ref ++ rest /\ is_loc_ref ref /\
  (forall x rest', rest = x :: rest' -> re_digit x = false).
Proof.
  unfold scan_ref. cbv zeta. split.
  - destruct (py_startswith s ‹"#loc"›) eqn:Hs; [|done].
    apply py_startswith_spec in Hs as [t ->].
    rewrite (drop_app_length' _ _ 4), (take_app_add' _ _ 4), (drop_app_add' _ _ 4) by done.
    destruct (Nat.leb_spec 1 (span_len re_digit t)) as [Hd|]; [|done].
    intros [= <- <-]. pose proof (span_len_le re_digit t).
    split_and!.
    + simpl. by rewrite take_drop.
    + exists (take (span_len re_digit t) t). split_and!.
      * done.
      * intros Hnil%(f_equal length). rewrite length_take in Hnil. simpl in Hnil. lia.
      * by apply forall_take_span.
    + intros x rest' Hx. simpl in Hx. apply (span_len_stop re_digit t).
      by rewrite <- (Nat.add_0_r (span_len re_digit t)), <- lookup_drop, Hx.
  - intros (-> & (ds & -> & Hne & Hds) & Hr).
    rewrite <- app_assoc, py_startswith_app, (drop_app_length' _ _ 4) by done.
    rewrite span_len_maximal by done.
    destruct ds as [|d ds]; [done|]. simpl Nat.leb. cbv iota.
    rewrite (take_app_add' _ _ 4), (drop_app_add' _ _ 4), take_app_length', drop_app_length' by done.
    done.
Qed.

(** [is_loc_ref] is decidable. *)
Definition loc_refb (r : str) : bool :=
  py_startswith r ‹"#loc"› && Nat.leb 1 (length (drop 4 r)) && forallb re_digit (drop 4 r).

Lemma loc_refb_spec r : loc_refb r = true <-> is_loc_ref r.
Proof.
  unfold loc_refb, is_loc_ref. rewrite !andb_true_iff, py_startswith_spec, forallb_forall.
  split.
  - intros [[[ds ->] Hl] Hd]. rewrite (drop_app_length' _ _ 4) in Hl, Hd by done.
    exists ds. split_and!; [done| |].
    + intros ->. by simpl in Hl.
    + apply Forall_forall. intros x Hx%list_elem_of_In. by apply Hd.
  - intros (ds & -> & Hne & Hds). rewrite (drop_app_length' _ _ 4) by done.
    split_and!; [eauto| |].
    + apply Nat.leb_le. destruct ds; [done|simpl; lia].
    + intros x Hx%list_elem_of_In. by apply (Forall_forall (fun x => re_digit x = true) ds) in Hx.
Qed.

#[export] Instance is_loc_ref_dec r : Decision (is_loc_ref r).
Proof. destruct (loc_refb r) eqn:E; [left|right]; rewrite <- loc_refb_spec; congruence. Defined.

(** A reference never starts with [callsite]. *)
Lemma loc_ref_not_callsite r : is_loc_ref r -> py_startswith r ‹"callsite"› = false.
Proof. by intros (ds & -> & _). Qed.

(** Whitespace, letters and punctuation end a run of digits. *)
Lemma space_not_digit x : re_space x = true -> re_digit x = false.
Proof. ascii_cases x; first [discriminate | reflexivity]. Qed.

Lemma scan_ref_app r rest :
  is_loc_ref r -> (forall x rest', rest = x :: rest' -> re_digit x = false) ->
  scan_ref (r ++ rest) = Some (r, rest).
Proof. intros Hr Hx. by apply scan_ref_spec. Qed.

(** What follows optional spaces and a non-digit starts with a non-digit. *)
Lemma nondigit_after_spaces w x t :
  Forall (fun y => re_space y = true) w -> re_digit x = false ->
  forall y r', w ++ x :: t = y :: r' -> re_digit y = false.
Proof.
  intros Hw Hx y r'. destruct Hw as [|z w Hz _]; simpl; intros [= <- _]; [done|].
  by apply space_not_digit.
Qed.
