(* ===== verification/LocationTable.v ===== *)
(** * LocationTable: [parse_location_mappings] (attributer.py, lines 6-22)

    The table maps each location reference [#locN] defined in the IR file
    to the raw text of its definition.  The loop strips every line and
    matches it against the pattern of line 13 (group 1 [#loc\d+], then
    [\s*=\s*loc\(], group 2 [.*], then [\)]) from its first
    character; on a match it stores group 2 under group 1, so a later
    definition of the same reference overwrites an earlier one.

    The matcher on this pattern is computed by the scanner
    [scan_def_line] ([re_match_loc_pattern]); the table is the map of the
    definition lines, the last one winning
    ([parse_location_mappings_last_wins]); its keys are location
    references ([parse_location_mappings_wf]); a file of printed
    definition lines is parsed back to its definitions, nested
    parentheses included ([parse_printed_file]). *)

From S2P Require Import Prelude PyStr Regex LocRef.
Open Scope py_scope.
Open Scope regex_scope.

Module LocationTable.

(** The pattern of line 13: group 1 [#loc\d+], [\s*], [=], [\s*],
    [loc\(], group 2 [.*], [\)]. *)
Definition loc_pattern : regex :=
  loc_ref_re 1 ⋅ Rep 0 re_space ⋅ lit ‹"="› ⋅ Rep 0 re_space ⋅ lit ‹"loc("›
    ⋅ Grp 2 (Rep 0 re_dot) ⋅ lit ‹")"›.

(** The body of the loop (lines 16-20). *)
Definition parse_line (location_mapping : gmap str str) (line : str) : gmap str str :=
  match re_match loc_pattern (py_strip line) with
  | Some m => <[mgroup m 1 := mgroup m 2]> location_mapping
  | None => location_mapping
  end.

(** [parse_location_mappings(ir_file)]: the loop over the lines of the
    file, from an empty dict (lines 12-22). *)
Definition parse_location_mappings (ir_file : list str) : gmap str str :=
  foldl parse_line ∅ ir_file.

(** ** The pattern as a scanner *)

(** Group 2, [.*] before [\)]: the longest prefix of the text before the first
    line break that a [)] follows. *)
Definition scan_body (t : str) : option str :=
  (fun j => take j t) <$> rfind (fun i => py_startswith (drop i t) ‹")"›) (span_len re_dot t).

Definition scan_def_line (t : str) : option (str * str) :=
  match scan_ref t with
  | Some (ref, t1) =>
      let t2 := drop (span_len re_space t1) t1 in
      if py_startswith t2 ‹"="› then
        let t3 := drop 1 t2 in
        let t4 := drop (span_len re_space t3) t3 in
        if py_startswith t4 ‹"loc("› then pair ref <$> scan_body (drop 4 t4) else None
      else None
  | None => None
  end.

(** ** Theorems *)

(** The matcher on the definition pattern computes the scanner: group 1
    is the reference at the start of the line, group 2 the text between
    [loc(] and the last [)] before a line break. *)
Theorem re_match_loc_pattern t :
  (fun m => (mgroup m 1, mgroup m 2)) <$> re_match loc_pattern t = scan_def_line t.
Proof.
  unfold re_match, loc_pattern, scan_def_line.
  rewrite mtch_loc_ref by (classes_disjoint || reflexivity).
  destruct (scan_ref t) as [[ref t1]|]; [|done]. cbv zeta.
  rewrite mtch_rep_cat by (classes_disjoint || reflexivity). cbn [Nat.leb].
  rewrite mtch_lit_cat. destruct (py_startswith _ ‹"="›); [|done].
  rewrite mtch_rep_cat by (classes_disjoint || reflexivity). cbn [Nat.leb].
  rewrite mtch_lit_cat. destruct (py_startswith _ ‹"loc("›); [|done].
  change (lit ‹")"›) with (lit [")"%char]). rewrite mtch_greedy_upto. unfold scan_body.
  by destruct (rfind _ _).
Qed.

(** ** The body of a definition *)

Abbreviation no_close := (Forall (fun x => x <> ")"%char)).

Lemma span_dot_body b rest :
  Forall (fun x => re_dot x = true) b ->
  span_len re_dot (b ++ ")"%char :: rest) = length b + S (span_len re_dot rest).
Proof. intros Hb. by rewrite span_len_app. Qed.

Lemma startswith_close_drop b rest i :
  py_startswith (drop (length b + S i) (b ++ ")"%char :: rest)) ‹")"› =
  py_startswith (drop i rest) ‹")"›.
Proof. by rewrite drop_app_add. Qed.

(** The group ends at a [)] after which the run of non-newline characters
    has no [)] left: the last one before the line break. *)
Lemma scan_body_sound t b :
  scan_body t = Some b ->
  exists rest, t = b ++ ")"%char :: rest /\ Forall (fun x => re_dot x = true) b /\
    no_close (take (span_len re_dot rest) rest).
Proof.
  unfold scan_body. destruct (rfind _ _) as [j|] eqn:E; [|done]. intros [= <-].
  apply rfind_Some in E as (Hj & Hs & Hmax).
  apply py_startswith_spec in Hs as [rest Hrest].
  assert (t = take j t ++ ")"%char :: rest) as Ht
    by (rewrite <- (take_drop j t) at 1; by rewrite Hrest).
  assert (Forall (fun x => re_dot x = true) (take j t)) as Hb by (by apply forall_take_span).
  assert (length (take j t) = j) as Hlen
    by (pose proof (span_len_le re_dot t); rewrite length_take; lia).
  exists rest. split_and!; [done|done|].
  apply Forall_lookup_2. intros k x Hk ->. apply lookup_take_Some in Hk as [Hk Hlt].
  remember (take j t) as b eqn:Eb. clear Eb. subst t j.
  specialize (Hmax (length b + S k)).
  rewrite startswith_close_drop, span_dot_body, (drop_S _ _ _ Hk) in Hmax by done.
  simpl in Hmax. discriminate Hmax. lia.
Qed.

Lemma scan_body_complete b rest :
  Forall (fun x => re_dot x = true) b -> no_close (take (span_len re_dot rest) rest) ->
  scan_body (b ++ ")"%char :: rest) = Some b.
Proof.
  intros Hb Hr. unfold scan_body. rewrite span_dot_body by done.
  rewrite (rfind_intro _ _ (length b)); [simpl; by rewrite take_app_length|lia| |].
  - by rewrite drop_app_length.
  - intros j Hj. replace j with (length b + S (j - length b - 1)) by lia.
    rewrite startswith_close_drop.
    destruct (drop (j - length b - 1) rest) as [|x r] eqn:E; [done|]. simpl.
    destruct (chr_eqb ")" x) eqn:Ex; [|done]. apply chr_eqb_true in Ex as <-.
    pose proof (span_len_le re_dot rest).
    assert (rest !! (j - length b - 1) = Some ")"%char) as Hl
      by (by rewrite <- (Nat.add_0_r (j - length b - 1)), <- lookup_drop, E).
    destruct (decide (j - length b - 1 < span_len re_dot rest)).
    + exfalso. eapply (Forall_lookup_1 _ _ (j - length b - 1)) in Hr; [done|].
      by apply lookup_take_Some.
    + replace (j - length b - 1) with (span_len re_dot rest) in Hl by lia.
      by apply span_len_stop in Hl.
Qed.

(** ** What a definition line is *)

(** A line the scanner accepts is a reference, optional spaces, [=],
    optional spaces, [loc(], a body without line break, and the last [)]
    before the line break; anything may follow. *)
Lemma scan_def_line_sound t r b :
  scan_def_line t = Some (r, b) ->
  exists w1 w2 rest,
    t = r ++ w1 ++ ‹"="› ++ w2 ++ ‹"loc("› ++ b ++ ")"%char :: rest /\
    is_loc_ref r /\ Forall (fun x => re_space x = true) w1 /\
    Forall (fun x => re_space x = true) w2 /\ Forall (fun x => re_dot x = true) b /\
    no_close (take (span_len re_dot rest) rest).
Proof.
  unfold scan_def_line. destruct (scan_ref t) as [[r' t1]|] eqn:Er; [|done]. cbv zeta.
  apply scan_ref_spec in Er as (-> & Hr & _).
  destruct (py_startswith _ ‹"="›) eqn:E1; [|done]. apply py_startswith_spec in E1 as [t3 E1].
  rewrite E1. cbn [drop app].
  destruct (py_startswith _ ‹"loc("›) eqn:E2; [|done]. apply py_startswith_spec in E2 as [t5 E2].
  rewrite E2, (drop_app_length' _ _ 4) by done.
  destruct (scan_body t5) as [b'|] eqn:Eb; [|done]. intros [= <- <-].
  apply scan_body_sound in Eb as (rest & -> & Hb & Hmax).
  set (w1 := take (span_len re_space t1) t1). set (w2 := take (span_len re_space t3) t3).
  assert (t1 = w1 ++ ‹"="› ++ t3) as Ht1 by (rewrite <- E1; symmetry; apply take_drop).
  assert (t3 = w2 ++ ‹"loc("› ++ b' ++ ")"%char :: rest) as Ht3
    by (rewrite <- E2; symmetry; apply take_drop).
  exists w1, w2, rest. rewrite Ht1, Ht3.
  split_and!; try done; by apply forall_take_span.
Qed.

(** The definitions of an IR file: the [(reference, body)] pair of each
    line the pattern matches, in file order. *)
Definition defs (ir_file : list str) : list (str * str) :=
  omap (fun line => scan_def_line (py_strip line)) ir_file.

Lemma parse_line_scan m line :
  parse_line m line =
  match scan_def_line (py_strip line) with Some (r, b) => <[r:=b]> m | None => m end.
Proof. unfold parse_line. rewrite <- re_match_loc_pattern. by destruct (re_match _ _). Qed.

Lemma parse_location_mappings_foldl lines :
  parse_location_mappings lines = foldl (fun m kv => <[kv.1 := kv.2]> m) ∅ (defs lines).
Proof.
  unfold parse_location_mappings, defs. generalize (∅ : gmap str str).
  induction lines as [|line lines IH]; intros m; [done|]. simpl.
  rewrite parse_line_scan. destruct (scan_def_line (py_strip line)) as [[r b]|]; apply IH.
Qed.

(** The table maps a reference to the body of its last definition line:
    a later definition of the same reference overwrites an earlier one. *)
Theorem parse_lookup_last lines r :
  parse_location_mappings lines !! r = last_value r (defs lines).
Proof.
  rewrite parse_location_mappings_foldl, foldl_insert_lookup. by destruct (last_value r _).
Qed.

(** The loop as the specification describes it, with the hand-written
    scanner of the definition grammar in place of the regular
    expression. *)
Definition parse_location_mappings_ref (ir_file : list str) : gmap str str :=
  foldl (fun m line =>
           match scan_def_line (py_strip line) with Some (r, b) => <[r:=b]> m | None => m end)
        ∅ ir_file.

(** C20: The regex-driven parser of lines 6-22 and the scanner-driven
    reference parser build the same table from every file. *)
Theorem parse_location_mappings_equiv ir_file :
  parse_location_mappings ir_file = parse_location_mappings_ref ir_file.
Proof.
  unfold parse_location_mappings, parse_location_mappings_ref. generalize (∅ : gmap str str).
  induction ir_file as [|line lines IH]; intros m; [done|]. cbn [foldl].
  rewrite parse_line_scan. apply IH.
Qed.

(** C6: the table maps [r] to [b] exactly when some definition line of
    the file defines [r] as [b] and no later line redefines [r]: the last
    definition of a reference wins. *)
Theorem parse_location_mappings_last_wins lines r b :
  parse_location_mappings lines !! r = Some b <->
  exists pre post, defs lines = pre ++ (r, b) :: post /\ r ∉ post.*1.
Proof. rewrite parse_lookup_last. apply last_value_Some_iff. Qed.

(** A well-formed table: its keys are location references and its values
    text without a line break. *)
Definition table_wf (t : gmap str str) : Prop :=
  forall r b, t !! r = Some b -> is_loc_ref r /\ Forall (fun x => re_dot x = true) b.

Lemma parse_table_wf lines : table_wf (parse_location_mappings lines).
Proof.
  intros r b. rewrite parse_lookup_last. intros H%last_value_elem.
  apply list_elem_of_omap in H as (line & _ & Hl).
  apply scan_def_line_sound in Hl as (? & ? & ? & _ & ? & _ & _ & ? & _). done.
Qed.

(** C15: Every key of the table is a location reference, and every value is
    text without a line break. *)
Theorem parse_location_mappings_wf lines r b :
  parse_location_mappings lines !! r = Some b ->
  is_loc_ref r /\ Forall (fun x => re_dot x = true) b.
Proof. apply parse_table_wf. Qed.

(** ** Printed definitions parse back *)

(** The definition line an IR printer writes for [ref] and [body], with
    the line break the file iterator keeps. *)
Definition print_def (ref body : str) : str := ref ++ ‹" = loc("› ++ body ++ ‹")"›.
Definition print_line (d : str * str) : str := print_def d.1 d.2 ++ ["010"%char].

(** A definition the printer can write: a reference and a body without
    line break. *)
Definition printable (d : str * str) : Prop :=
  is_loc_ref d.1 /\ Forall (fun x => re_dot x = true) d.2.

#[export] Instance printable_dec d : Decision (printable d).
Proof. unfold printable. apply _. Defined.

Lemma scan_print_def r b :
  is_loc_ref r -> Forall (fun x => re_dot x = true) b -> scan_def_line (print_def r b) = Some (r, b).
Proof.
  intros Hr Hb. unfold scan_def_line, print_def.
  rewrite (proj2 (scan_ref_spec _ r _)) by (split_and!; [done|done|by intros ? ? [= <- _]]).
  change (pair r <$> scan_body (b ++ ")"%char :: []) = Some (r, b)). by rewrite scan_body_complete.
Qed.

Lemma strip_print_line d : printable d -> py_strip (print_line d) = print_def d.1 d.2.
Proof.
  intros [(ds & Hr & _) _]. unfold print_line.
  apply (py_strip_pad [] _ ["010"%char]); [constructor|by repeat constructor| |].
  - rewrite Hr. by intros ? ? [= <- _].
  - intros x t Ht. unfold print_def in Ht. rewrite !app_assoc in Ht.
    by apply app_inj_tail in Ht as [_ <-].
Qed.

Lemma defs_printed ds : Forall printable ds -> defs (print_line <$> ds) = ds.
Proof.
  induction 1 as [|[r b] ds Hd _ IH]; [done|].
  unfold defs. cbn [fmap list_fmap omap list_omap]. rewrite strip_print_line by done.
  destruct Hd as [Hr Hb]. rewrite scan_print_def by done. f_equal. apply IH.
Qed.

(** C14: A file of printed definitions parses to the map of those definitions,
    the last one of a reference winning; bodies keep their nested
    parentheses. *)
Theorem parse_printed_file ds r :
  Forall printable ds ->
  parse_location_mappings (print_line <$> ds) !! r = last_value r ds.
Proof. intros Hds. by rewrite parse_lookup_last, defs_printed. Qed.

(** ** Examples *)

(** The three definition lines of spec section 8, property 2. *)
Definition sample_defs : list (str * str) :=
  [(‹"#loc1"›, [dq] ++ ‹"a.py"› ++ [dq] ++ ‹":1:1"›);
   (‹"#loc2"›, [dq] ++ ‹"b.py"› ++ [dq] ++ ‹":2:2"›);
   (‹"#loc3"›, ‹"callsite(#loc1 at #loc2)"›)].

Lemma parse_printed_file_witness :
  Forall printable sample_defs /\
  parse_location_mappings (print_line <$> sample_defs) !! ‹"#loc3"›
    = Some ‹"callsite(#loc1 at #loc2)"›.
Proof.
  assert (Forall printable sample_defs) as H by (apply (bool_decide_unpack _); vm_compute; exact I).
  split; [exact H|]. rewrite (parse_printed_file sample_defs _ H). reflexivity.
Defined.

Lemma parse_location_mappings_wf_witness :
  is_loc_ref ‹"#loc2"› /\ Forall (fun x => re_dot x = true) ([dq] ++ ‹"b.py"› ++ [dq] ++ ‹":2:2"›).
Proof.
  apply (parse_location_mappings_wf (print_line <$> sample_defs)). vm_compute. reflexivity.
Defined.

Lemma parse_location_mappings_last_wins_witness :
  exists pre post, defs (print_line <$> sample_defs) = pre ++ (‹"#loc2"›, [dq] ++ ‹"b.py"› ++ [dq] ++ ‹":2:2"›) :: post /\ ‹"#loc2"› ∉ post.*1.
Proof. apply parse_location_mappings_last_wins. vm_compute. reflexivity. Defined.

End LocationTable.
