(* ===== verification/LocationResolver.v ===== *)
(** * LocationResolver: [resolve_loc_reference] (attributer.py, lines 25-39)

    A text starting with [callsite] is matched against the pattern of line
    31 (literal [callsite(], group 1 a reference, [\s*], [at], [\s*],
    group 2 a reference, [)]); on a match the two references are resolved
    by a recursive call each and printed as ["<caller> -> <called>"]; on
    no match the function falls off its end and returns [None].  Any other
    text is looked up in the table with ["unknown"] as default.

    The recursion is modelled with fuel ([resolve_fuel]);
    [resolve_loc_reference] gives it [1 + length] of its argument, which
    bounds the depth since each recursive call is on a strictly shorter
    group.  [resolve_fuel_enough] shows the fuel never runs out: every
    amount from 2 on gives the same answer, because the operands of a
    callsite are [#loc] references, which take the lookup branch.  So the
    resolver goes at most one level deep: a callsite operand whose table
    entry is itself a callsite comes back as that entry's raw text
    ([resolve_callsite]). *)

From S2P Require Import Prelude PyStr Regex LocRef.
Open Scope py_scope.
Open Scope regex_scope.

Module LocationResolver.

(** The pattern of line 31. *)
Definition callsite_pattern : regex :=
  lit ‹"callsite("› ⋅ loc_ref_re 1 ⋅ Rep 0 re_space ⋅ lit ‹"at"› ⋅ Rep 0 re_space
    ⋅ loc_ref_re 2 ⋅ lit ‹")"›.

(** [resolve_loc_reference(loc_ref, location_mapping)] with a recursion
    budget; [None] is Python's [None]. *)
Fixpoint resolve_fuel (fuel : nat) (loc_ref : str) (location_mapping : gmap str str)
  : option str :=
  match fuel with
  | 0 => None
  | S fuel' =>
      if py_startswith loc_ref ‹"callsite"› then
        match re_match callsite_pattern loc_ref with
        | Some m =>
            let called_loc := resolve_fuel fuel' (mgroup m 1) location_mapping in
            let caller_loc := resolve_fuel fuel' (mgroup m 2) location_mapping in
            Some (py_format caller_loc ++ ‹" -> "› ++ py_format called_loc)
        | None => None
        end
      else Some (py_dict_get location_mapping loc_ref ‹"unknown"›)
  end.

Definition resolve_loc_reference (loc_ref : str) (location_mapping : gmap str str)
  : option str :=
  resolve_fuel (S (length loc_ref)) loc_ref location_mapping.

(** ** The callsite pattern as a scanner *)

Definition scan_callsite (t : str) : option (str * str) :=
  if py_startswith t ‹"callsite("› then
    match scan_ref (drop 9 t) with
    | Some (called, t1) =>
        let t2 := drop (span_len re_space t1) t1 in
        if py_startswith t2 ‹"at"› then
          let t3 := drop 2 t2 in
          match scan_ref (drop (span_len re_space t3) t3) with
          | Some (caller, t5) => if py_startswith t5 ‹")"› then Some (called, caller) else None
          | None => None
          end
        else None
    | None => None
    end
  else None.

(** The resolver as the specification reads it, without recursion: a
    callsite prints the entries of its two operands, caller first; a
    malformed callsite has no value; anything else is looked up. *)
Definition resolve_spec (t : str) (m : gmap str str) : option str :=
  if py_startswith t ‹"callsite"› then
    match scan_callsite t with
    | Some (called, caller) =>
        Some (py_dict_get m caller ‹"unknown"› ++ ‹" -> "› ++ py_dict_get m called ‹"unknown"›)
    | None => None
    end
  else Some (py_dict_get m t ‹"unknown"›).

Theorem re_match_callsite t :
  (fun m => (mgroup m 1, mgroup m 2)) <$> re_match callsite_pattern t = scan_callsite t.
Proof.
  unfold re_match, callsite_pattern, scan_callsite.
  rewrite mtch_lit_cat. destruct (py_startswith t _); [|done]. change (length _) with 9.
  rewrite mtch_loc_ref by (classes_disjoint || reflexivity).
  destruct (scan_ref (drop 9 t)) as [[called t1]|]; [|done]. cbv zeta.
  rewrite mtch_rep_cat by (classes_disjoint || reflexivity). cbn [Nat.leb].
  rewrite mtch_lit_cat. destruct (py_startswith _ ‹"at"›); [|done].
  rewrite mtch_rep_cat by (classes_disjoint || reflexivity). cbn [Nat.leb].
  rewrite mtch_loc_ref by (classes_disjoint || reflexivity).
  destruct (scan_ref _) as [[caller t5]|]; [|done].
  rewrite mtch_lit. by destruct (py_startswith t5 ‹")"›).
Qed.

(** The callsite text the scanner accepts: [callsite(], a reference,
    optional spaces, [at], optional spaces, a reference, [)], and anything
    after it.  The spaces around [at] may be absent. *)
Theorem scan_callsite_spec t called caller :
  scan_callsite t = Some (called, caller) <->
  exists w1 w2 rest,
    t = ‹"callsite("› ++ called ++ w1 ++ ‹"at"› ++ w2 ++ caller ++ ")"%char :: rest /\
    is_loc_ref called /\ is_loc_ref caller /\
    Forall (fun x => re_space x = true) w1 /\ Forall (fun x => re_space x = true) w2.
Proof.
  unfold scan_callsite. split.
  - destruct (py_startswith t _) eqn:E0; [|done]. apply py_startswith_spec in E0 as [t0 ->].
    rewrite (drop_app_length' _ _ 9) by done.
    destruct (scan_ref t0) as [[a t1]|] eqn:Ea; [|done]. cbv zeta.
    apply scan_ref_spec in Ea as (-> & Ha & _).
    destruct (py_startswith _ ‹"at"›) eqn:E1; [|done]. apply py_startswith_spec in E1 as [t3 E1].
    rewrite E1. cbn [drop app].
    destruct (scan_ref _) as [[b t5]|] eqn:Eb; [|done]. apply scan_ref_spec in Eb as (Eb & Hb & _).
    destruct (py_startswith t5 _) eqn:E2; [|done]. apply py_startswith_spec in E2 as [rest ->].
    intros [= <- <-].
    set (w1 := take (span_len re_space t1) t1). set (w2 := take (span_len re_space t3) t3).
    assert (t1 = w1 ++ ‹"at"› ++ t3) as Ht1 by (rewrite <- E1; symmetry; apply take_drop).
    assert (t3 = w2 ++ b ++ ‹")"› ++ rest) as Ht3 by (rewrite <- Eb; symmetry; apply take_drop).
    exists w1, w2, rest. rewrite Ht1, Ht3.
    split_and!; try done; by apply forall_take_span.
  - intros (w1 & w2 & rest & -> & Ha & Hb & Hw1 & Hw2).
    rewrite py_startswith_app, (drop_app_length' _ _ 9) by done.
    rewrite (scan_ref_app called) by (done || by apply nondigit_after_spaces).
    cbv zeta. rewrite (span_len_maximal re_space w1) by (done || by intros ? ? [= <- _]).
    rewrite drop_app_length, py_startswith_app, (drop_app_length' _ _ 2) by done.
    destruct Hb as (ds & -> & Hb).
    rewrite (span_len_maximal re_space w2) by (done || by intros ? ? [= <- _]).
    rewrite drop_app_length, scan_ref_app by (done || by exists ds || by intros ? ? [= <- _]).
    done.
Qed.

(** ** The resolver *)

Lemma resolve_fuel_ref n r m :
  is_loc_ref r -> resolve_fuel (S n) r m = Some (py_dict_get m r ‹"unknown"›).
Proof. intros Hr. cbn [resolve_fuel]. by rewrite loc_ref_not_callsite. Qed.

Lemma re_match_callsite_Some t m :
  re_match callsite_pattern t = Some m -> scan_callsite t = Some (mgroup m 1, mgroup m 2).
Proof. intros H. by rewrite <- re_match_callsite, H. Qed.

Lemma re_match_callsite_None t :
  re_match callsite_pattern t = None -> scan_callsite t = None.
Proof. intros H. by rewrite <- re_match_callsite, H. Qed.

Lemma scan_callsite_startswith t a b :
  scan_callsite t = Some (a, b) -> py_startswith t ‹"callsite"› = true.
Proof. intros (? & ? & ? & -> & _)%scan_callsite_spec. done. Qed.

Lemma resolve_fuel_2 n t m : resolve_fuel (S (S n)) t m = resolve_fuel 2 t m.
Proof.
  cbn [resolve_fuel]. destruct (py_startswith t _); [|done].
  destruct (re_match callsite_pattern t) as [c|] eqn:E; [|done].
  apply re_match_callsite_Some, scan_callsite_spec in E as (? & ? & ? & _ & Ha & Hb & _).
  by rewrite (loc_ref_not_callsite _ Ha), (loc_ref_not_callsite _ Hb).
Qed.

(** [resolve_loc_reference] runs on fuel 2. *)
Lemma resolve_is_fuel_2 t m : resolve_loc_reference t m = resolve_fuel 2 t m.
Proof.
  unfold resolve_loc_reference. destruct t as [|x t]; [done|]. simpl length. apply resolve_fuel_2.
Qed.

Lemma resolve_loc_ref r m :
  is_loc_ref r -> resolve_loc_reference r m = Some (py_dict_get m r ‹"unknown"›).
Proof. intros Hr. rewrite resolve_is_fuel_2. by apply resolve_fuel_ref. Qed.

(** C11: The recursion never runs out of budget: any fuel from 2 on gives
    [resolve_loc_reference]'s answer, so the resolver recurses at most one
    level and terminates on every input. *)
Theorem resolve_fuel_enough n t m :
  2 <= n -> resolve_fuel n t m = resolve_loc_reference t m.
Proof.
  intros Hn. rewrite resolve_is_fuel_2. destruct n as [|[|n]]; [lia|lia|]. apply resolve_fuel_2.
Qed.

(** C12: A text not starting with [callsite] is looked up, with ["unknown"] for
    a reference the table does not have. *)
Theorem resolve_plain t m :
  py_startswith t ‹"callsite"› = false ->
  resolve_loc_reference t m = Some (py_dict_get m t ‹"unknown"›).
Proof. intros H. unfold resolve_loc_reference. cbn [resolve_fuel]. by rewrite H. Qed.

Lemma resolve_fuel_2_spec t m : resolve_fuel 2 t m = resolve_spec t m.
Proof.
  unfold resolve_spec. cbn [resolve_fuel]. destruct (py_startswith t _); [|done].
  destruct (re_match callsite_pattern t) as [c|] eqn:E.
  - apply re_match_callsite_Some in E. rewrite E.
    apply scan_callsite_spec in E as (? & ? & ? & _ & Ha & Hb & _).
    by rewrite (loc_ref_not_callsite _ Ha), (loc_ref_not_callsite _ Hb).
  - by rewrite (re_match_callsite_None _ E).
Qed.

(** C3: A well-formed callsite prints the caller's entry, [ -> ], and the
    called entry; each operand is looked up once and not resolved any
    further, so an operand whose entry is itself a callsite shows as that
    raw text. *)
Theorem resolve_callsite t m called caller :
  scan_callsite t = Some (called, caller) ->
  resolve_loc_reference t m =
    Some (py_dict_get m caller ‹"unknown"› ++ ‹" -> "› ++ py_dict_get m called ‹"unknown"›).
Proof.
  intros H. rewrite resolve_is_fuel_2, resolve_fuel_2_spec. unfold resolve_spec.
  by rewrite (scan_callsite_startswith _ _ _ H), H.
Qed.

(** C10: The resolver returns [None] exactly on a text that starts with
    [callsite] but does not match the callsite pattern: the [if match:]
    of line 33 has no [else], and the function falls off its end. *)
Theorem resolve_None_iff t m :
  resolve_loc_reference t m = None <->
  py_startswith t ‹"callsite"› = true /\ scan_callsite t = None.
Proof.
  rewrite resolve_is_fuel_2, resolve_fuel_2_spec. unfold resolve_spec.
  destruct (py_startswith t _), (scan_callsite t) as [[]|]; naive_solver.
Qed.

(** C19: The recursive, regex-driven resolver of lines 25-39 computes the
    non-recursive [resolve_spec] on every text and table. *)
Theorem resolve_loc_reference_equiv t m : resolve_loc_reference t m = resolve_spec t m.
Proof. by rewrite resolve_is_fuel_2, resolve_fuel_2_spec. Qed.

(** ** Examples *)

(** The table of spec section 8, property 2. *)
Definition sample_table : gmap str str :=
  <[‹"#loc1"› := [dq] ++ ‹"a.py"› ++ [dq] ++ ‹":1:1"›]>
  (<[‹"#loc2"› := [dq] ++ ‹"b.py"› ++ [dq] ++ ‹":2:2"›]>
  (<[‹"#loc3"› := ‹"callsite(#loc1 at #loc2)"›]> ∅)).

Lemma resolve_plain_witness :
  py_startswith ‹"#loc9"› ‹"callsite"› = false /\
  resolve_loc_reference ‹"#loc9"› sample_table = Some ‹"unknown"›.
Proof. split; [reflexivity|]. apply (resolve_plain ‹"#loc9"› sample_table). reflexivity. Defined.

Lemma resolve_callsite_witness :
  scan_callsite ‹"callsite(#loc1 at #loc2)"› = Some (‹"#loc1"›, ‹"#loc2"›) /\
  resolve_loc_reference ‹"callsite(#loc1 at #loc2)"› sample_table =
    Some ([dq] ++ ‹"b.py"› ++ [dq] ++ ‹":2:2 -> "› ++ [dq] ++ ‹"a.py"› ++ [dq] ++ ‹":1:1"›).
Proof.
  split; [reflexivity|]. rewrite (resolve_callsite _ _ ‹"#loc1"› ‹"#loc2"›); reflexivity.
Defined.

Lemma resolve_fuel_enough_witness :
  resolve_fuel 5 ‹"callsite(#loc1 at #loc2)"› sample_table =
  resolve_loc_reference ‹"callsite(#loc1 at #loc2)"› sample_table.
Proof. apply resolve_fuel_enough. lia. Defined.

Lemma resolve_None_iff_witness :
  resolve_loc_reference ‹"callsite(#loc1)"› sample_table = None.
Proof. apply resolve_None_iff. split; reflexivity. Defined.

End LocationResolver.
