(* ===== verification/LineAttributor.v ===== *)
(** * LineAttributor: [extract_loc_reference] and
      [get_source_location_from_line] (attributer.py, lines 42-60)

    [extract_loc_reference] searches the line for the pattern of line 46
    (literal [loc(], group 1 a reference, [)]) and returns group 1 of the
    leftmost match, or [None].  Its argument is [str | None]: the caller
    passes what [get_line_from_file] returned, and [pattern.search(None)]
    raises [TypeError].  [get_source_location_from_line] resolves the
    reference found, or answers ["No location found"].

    [re_search_marker] computes the search by the scanner [find_marker];
    [find_marker_Some] and [find_marker_None] say what it finds (the leftmost [loc(#locN)]
    marker).  The main theorems: on a line the answer is the table entry
    of the marker's reference, ["unknown"] or ["No location found"]; it is
    never a resolved callsite chain, since a marker holds a bare reference
    ([get_source_location_marker]); on [None] the function raises. *)

From S2P Require Import Prelude PyStr Regex LocRef LocationResolver.
Open Scope py_scope.
Open Scope regex_scope.

Module LineAttributor.
Import LocationResolver.

(** The pattern of line 46. *)
Definition ref_pattern : regex := lit ‹"loc("› ⋅ loc_ref_re 1 ⋅ lit ‹")"›.

(** [extract_loc_reference(line)] for [line : str | None] (lines 42-50). *)
Definition extract_loc_reference (line : option str) : py_res (option str) :=
  match line with
  | None => Raise TypeError
  | Some l =>
      match re_search ref_pattern l with
      | Some m => Ok (Some (mgroup m 1))
      | None => Ok None
      end
  end.

(** [get_source_location_from_line(line, location_mapping)] (lines 53-60). *)
Definition get_source_location_from_line (line : option str)
  (location_mapping : gmap str str) : py_res (option str) :=
  match extract_loc_reference line with
  | Raise e => Raise e
  | Ok loc_ref =>
      if py_truthy loc_ref then Ok (resolve_loc_reference (default [] loc_ref) location_mapping)
      else Ok (Some ‹"No location found"›)
  end.

(** ** The search as a scanner *)

Definition scan_marker (t : str) : option str :=
  if py_startswith t ‹"loc("› then
    match scan_ref (drop 4 t) with
    | Some (r, rest) => if py_startswith rest ‹")"› then Some r else None
    | None => None
    end
  else None.

Fixpoint find_marker (s : str) : option str :=
  match scan_marker s with
  | Some r => Some r
  | None => match s with [] => None | _ :: s' => find_marker s' end
  end.

Lemma re_match_ref_pattern t : (fun m => mgroup m 1) <$> re_match ref_pattern t = scan_marker t.
Proof.
  unfold re_match, ref_pattern, scan_marker.
  rewrite mtch_lit_cat. destruct (py_startswith t _); [|done]. change (length _) with 4.
  rewrite mtch_loc_ref by (classes_disjoint || reflexivity).
  destruct (scan_ref _) as [[r rest]|]; [|done].
  rewrite mtch_lit. by destruct (py_startswith rest _).
Qed.

Theorem re_search_marker s : (fun m => mgroup m 1) <$> re_search ref_pattern s = find_marker s.
Proof.
  induction s as [|x s IH]; cbn [re_search find_marker];
    rewrite <- re_match_ref_pattern; destruct (re_match ref_pattern _); done.
Qed.

(** A marker is [loc(], a reference, [)]. *)
Lemma scan_marker_spec t r :
  scan_marker t = Some r <-> exists post, t = ‹"loc("› ++ r ++ ‹")"› ++ post /\ is_loc_ref r.
Proof.
  unfold scan_marker. split.
  - destruct (py_startswith t _) eqn:E; [|done]. apply py_startswith_spec in E as [t0 ->].
    rewrite (drop_app_length' _ _ 4) by done.
    destruct (scan_ref t0) as [[r' rest]|] eqn:Er; [|done].
    apply scan_ref_spec in Er as (-> & Hr & _).
    destruct (py_startswith rest _) eqn:E; [|done]. apply py_startswith_spec in E as [post ->].
    intros [= <-]. eauto.
  - intros (post & -> & Hr). rewrite py_startswith_app, (drop_app_length' _ _ 4) by done.
    rewrite scan_ref_app by (done || by intros ? ? [= <- _]). done.
Qed.

(** The search finds the marker at the leftmost position that has one. *)
Lemma find_marker_Some s r :
  find_marker s = Some r ->
  exists j, scan_marker (drop j s) = Some r /\ forall i, i < j -> scan_marker (drop i s) = None.
Proof.
  induction s as [|x s IH]; cbn [find_marker].
  - destruct (scan_marker []) eqn:E; [intros [= <-]|done]. exists 0. split; [done|lia].
  - destruct (scan_marker (x :: s)) eqn:E; [intros [= <-]; exists 0; split; [done|lia]|].
    intros (j & Hj & Hl)%IH. exists (S j). split; [done|]. intros [|i] Hi; [done|]. apply Hl. lia.
Qed.

Lemma find_marker_None s : find_marker s = None -> forall j, scan_marker (drop j s) = None.
Proof.
  induction s as [|x s IH]; cbn [find_marker].
  - destruct (scan_marker []) eqn:E; [done|]. intros _ [|j]; done.
  - destruct (scan_marker (x :: s)) eqn:E; [done|]. intros H [|j]; [done|]. by apply IH.
Qed.

Lemma extract_loc_reference_Some l :
  extract_loc_reference (Some l) = Ok (find_marker l).
Proof.
  unfold extract_loc_reference. rewrite <- re_search_marker. by destruct (re_search _ _).
Qed.

(** ** Theorems *)

(** What a line attributes to: the table entry of its marker's reference
    ([unknown] if absent), or [No location found]. *)
Definition line_answer (l : str) (m : gmap str str) : str :=
  match find_marker l with
  | Some r => py_dict_get m r ‹"unknown"›
  | None => ‹"No location found"›
  end.

Lemma get_source_location_answer l m :
  get_source_location_from_line (Some l) m = Ok (Some (line_answer l m)).
Proof.
  unfold get_source_location_from_line, line_answer. rewrite extract_loc_reference_Some.
  destruct (find_marker l) as [r|] eqn:H; [|done].
  destruct (find_marker_Some _ _ H) as (j & Hj & _).
  apply scan_marker_spec in Hj as (_ & _ & Hr).
  pose proof Hr as (ds & -> & _). cbn [py_truthy app default].
  by rewrite resolve_loc_ref.
Qed.

(** C2: A line with a marker [loc(#locN)] gives the table entry of [#locN], or
    ["unknown"]: the reference is looked up, never resolved further, so a
    [#locN] defined as a callsite shows its raw [callsite(...)] text. *)
Theorem get_source_location_marker l m r :
  find_marker l = Some r ->
  get_source_location_from_line (Some l) m = Ok (Some (py_dict_get m r ‹"unknown"›)).
Proof. intros H. by rewrite get_source_location_answer; unfold line_answer; rewrite H. Qed.

(** C16: A line without a marker gives ["No location found"]. *)
Theorem get_source_location_no_marker l m :
  find_marker l = None ->
  get_source_location_from_line (Some l) m = Ok (Some ‹"No location found"›).
Proof. intros H. by rewrite get_source_location_answer; unfold line_answer; rewrite H. Qed.

(** ** Examples *)

Lemma get_source_location_marker_witness :
  find_marker ‹"%0 = arith.constant 0 : i32 loc(#loc3)"› = Some ‹"#loc3"› /\
  get_source_location_from_line (Some ‹"%0 = arith.constant 0 : i32 loc(#loc3)"›) sample_table
    = Ok (Some ‹"callsite(#loc1 at #loc2)"›).
Proof. split; [reflexivity|]. rewrite (get_source_location_marker _ _ ‹"#loc3"›); reflexivity. Defined.

Lemma get_source_location_no_marker_witness :
  get_source_location_from_line (Some ‹"tt.return"›) sample_table
    = Ok (Some ‹"No location found"›).
Proof. apply get_source_location_no_marker. reflexivity. Defined.

End LineAttributor.
