(* ===== verification/FrameAttributor.v ===== *)
(** * FrameAttributor, pure part (attributer.py, lines 65-79 and 94)

    [extract_file_and_line] matches a frame descriptor against the pattern
    of line 73: group 1 is a greedy [.+], then [:], then [[^@]+], then
    [@], then group 2 [\d+]; the path is group 1 and the line number
    [int] of group 2.  Because [.+] is greedy the path is the LONGEST
    prefix after which the rest fits, so a tag containing [:] is cut at
    its last colon ([re_match_frame], [extract_file_and_line_spec],
    [extract_file_and_line_colon_tag]).

    [find_line] is the loop of [get_line_from_file] (lines 65-68): the
    stripped line whose 1-based number is asked for, or [None]
    ([find_line_spec]).  [format_location] is the post-processing of line
    94 ([format_location_spec]).  The stateful entry point that uses them
    is in [Attribution.v]. *)

From S2P Require Import Prelude PyStr Regex LocRef LocationTable LocationResolver LineAttributor.
Open Scope py_scope.
Open Scope regex_scope.

Module FrameAttributor.

(** ** Frame descriptors *)

(** The pattern of line 73. *)
Definition frame_pattern : regex :=
  Grp 1 (Rep 1 re_dot) ⋅ lit ‹":"› ⋅ Rep 1 (re_not "@"%char) ⋅ lit ‹"@"› ⋅ Grp 2 (Rep 1 re_digit).

(** [extract_file_and_line(input_string)] (lines 71-79); [None] stands
    for the pair [(None, None)]. *)
Definition extract_file_and_line (input_string : str) : option (str * N) :=
  match re_match frame_pattern input_string with
  | Some m => Some (mgroup m 1, py_int (mgroup m 2))
  | None => None
  end.

(** What must follow the path: [:], a non-empty run without [@], [@], and
    a non-empty run of digits (the line number's text). *)
Definition scan_tail (u : str) : option str :=
  match u with
  | x :: u1 =>
      if chr_eqb ":"%char x then
        let a := span_len (re_not "@"%char) u1 in
        if Nat.leb 1 a then
          match drop a u1 with
          | y :: u2 =>
              if chr_eqb "@"%char y then
                let d := span_len re_digit u2 in
                if Nat.leb 1 d then Some (take d u2) else None
              else None
          | [] => None
          end
        else None
      else None
  | [] => None
  end.

(** The path is the longest non-empty prefix without line break that a
    valid tail follows. *)
Definition scan_frame (s : str) : option (str * str) :=
  match rfind (fun i => Nat.leb 1 i && bool_decide (is_Some (scan_tail (drop i s))))
              (span_len re_dot s) with
  | Some i => pair (take i s) <$> scan_tail (drop i s)
  | None => None
  end.

Definition frame_tail : regex := lit ‹":"› ⋅ Rep 1 (re_not "@"%char) ⋅ lit ‹"@"› ⋅ Grp 2 (Rep 1 re_digit).

Lemma mtch_frame_tail u c :
  mtch frame_tail u c (fun _ c' => Some c') = (fun d => (2, d) :: c) <$> scan_tail u.
Proof.
  unfold frame_tail. change ‹":"› with [":"%char]. change ‹"@"› with ["@"%char].
  rewrite mtch_lit_cat. destruct u as [|x u1]; [done|].
  rewrite py_startswith_single. cbn [scan_tail].
  destruct (chr_eqb ":"%char x); [|done]. cbn [length drop]. change (drop 0 u1) with u1. cbv zeta.
  rewrite mtch_rep_cat by (classes_disjoint || reflexivity).
  destruct (Nat.leb 1 _); [|done]. rewrite mtch_lit_cat.
  destruct (drop (span_len (re_not "@"%char) u1) u1) as [|y u2]; [done|]. rewrite py_startswith_single. cbn [length drop].
  destruct (chr_eqb "@"%char y); [|done].
  rewrite mtch_grp_rep_final. by destruct (Nat.leb 1 _).
Qed.

(** The matcher on the frame pattern computes the scanner: the greedy
    [.+] gives back characters from the right until a valid tail follows. *)
Theorem re_match_frame s :
  extract_file_and_line s = (fun pd => (pd.1, py_int pd.2)) <$> scan_frame s.
Proof.
  unfold extract_file_and_line, re_match, frame_pattern, scan_frame.
  rewrite mtch_cat, mtch_grp, mtch_rep.
  pose proof (span_len_le re_dot s) as Hle.
  rewrite (first_some_ext _ (fun i =>
    if bool_decide (is_Some (scan_tail (drop i s)))
    then Some ((2, default [] (scan_tail (drop i s))) :: [(1, take i s)]) else None)).
  - rewrite first_some_downto.
    destruct (rfind _ _) as [i|] eqn:E; [|done]. simpl.
    apply rfind_Some in E as (_ & Hi & _). apply andb_true_iff in Hi as [_ Hi].
    apply bool_decide_eq_true in Hi as [d Hd]. by rewrite Hd.
  - intros i Hi%elem_downto. cbv beta.
    change (mtch (lit ‹":"› ⋅ Rep 1 (re_not "@"%char) ⋅ lit ‹"@"› ⋅ Grp 2 (Rep 1 re_digit)))
      with (mtch frame_tail).
    rewrite mtch_frame_tail, length_drop.
    replace (length s - (length s - i)) with i by lia.
    by destruct (scan_tail (drop i s)).
Qed.

(** C13: The path is a non-empty prefix without line break, followed by a
    valid tail whose digits give the line number; no longer prefix
    without line break is followed by a valid tail. *)
Theorem extract_file_and_line_spec s p n :
  extract_file_and_line s = Some (p, n) ->
  exists t d, s = p ++ t /\ scan_tail t = Some d /\ n = py_int d /\
    p <> [] /\ Forall (fun x => re_dot x = true) p /\
    forall i, length p < i <= span_len re_dot s -> scan_tail (drop i s) = None.
Proof.
  rewrite re_match_frame. unfold scan_frame.
  destruct (rfind _ _) as [i|] eqn:E; [|done].
  apply rfind_Some in E as (Hi & Hf & Hmax). apply andb_true_iff in Hf as [H1 Hf].
  apply bool_decide_eq_true in Hf as [d Hd]. rewrite Hd. intros [= <- <-].
  pose proof (span_len_le re_dot s). apply Nat.leb_le in H1.
  assert (length (take i s) = i) as Hlen by (rewrite length_take; lia).
  exists (drop i s), d. split_and!; [by rewrite take_drop|done|done| | |].
  - intros Hnil. rewrite <- Hlen, Hnil in H1. simpl in H1. lia.
  - by apply forall_take_span.
  - intros j Hj. rewrite Hlen in Hj. specialize (Hmax j Hj).
    apply andb_false_iff in Hmax as [Hm|Hm]; [apply Nat.leb_gt in Hm; lia|].
    apply bool_decide_eq_false in Hm. by apply eq_None_not_Some.
Qed.

(** C24: Conversely, a descriptor that splits into a non-empty path
    without line break and a valid tail, no longer such prefix being
    followed by a valid tail, is parsed into that path and the tail's line
    number: with C13, [extract_file_and_line] is exactly this split. *)
Theorem extract_file_and_line_complete s p t d :
  s = p ++ t -> p <> [] -> Forall (fun x => re_dot x = true) p -> scan_tail t = Some d ->
  (forall i, length p < i <= span_len re_dot s -> scan_tail (drop i s) = None) ->
  extract_file_and_line s = Some (p, py_int d).
Proof.
  intros -> Hp Hdot Ht Hmax. rewrite re_match_frame. unfold scan_frame.
  rewrite (rfind_intro _ _ (length p)).
  - destruct (take_drop_app p t) as [-> ->]. by rewrite Ht.
  - by apply span_len_ge.
  - destruct (take_drop_app p t) as [_ ->]. rewrite Ht, andb_true_iff, Nat.leb_le.
    split; [destruct p; [done|simpl; lia]|by apply bool_decide_eq_true_2].
  - intros j Hj. rewrite (Hmax j Hj). by rewrite andb_false_r.
Qed.

(** A descriptor whose tag contains [::] is cut at its last colon: the
    path takes the first part of the tag. *)
Example extract_file_and_line_colon_tag :
  extract_file_and_line ‹"/p/k.ttgir:ns::fn@12"› = Some (‹"/p/k.ttgir:ns:"›, 12%N).
Proof. vm_compute. reflexivity. Qed.

(** ** Reading one line *)

(** The loop of [get_line_from_file] (lines 65-68): [enumerate(file,
    start=1)] and the first line whose number equals [line_number],
    stripped. *)
Fixpoint find_line (lines : list str) (current_line_number line_number : N) : option str :=
  match lines with
  | [] => None
  | line :: lines' =>
      if N.eqb current_line_number line_number then Some (py_strip line)
      else find_line lines' (current_line_number + 1)%N line_number
  end.

(** Line numbers count from 1: line [n] is the [n-1]-th element; [0] and
    numbers past the end give [None]. *)
Theorem find_line_spec lines n :
  find_line lines 1 n =
  if N.eqb n 0 then None else py_strip <$> lines !! (N.to_nat n - 1).
Proof.
  assert (forall k, find_line lines (N.of_nat (S k)) n =
            if N.ltb n (N.of_nat (S k)) then None
            else py_strip <$> lines !! (N.to_nat n - S k)) as H.
  { induction lines as [|l lines IH]; intros k; cbn [find_line].
    - by destruct (N.ltb _ _).
    - destruct (N.eqb_spec (N.of_nat (S k)) n) as [<-|Hne].
      + rewrite (proj2 (N.ltb_ge _ _)) by lia. by rewrite Nat2N.id, Nat.sub_diag.
      + replace (N.of_nat (S k) + 1)%N with (N.of_nat (S (S k))) by lia. rewrite IH.
        destruct (N.ltb_spec n (N.of_nat (S (S k)))), (N.ltb_spec n (N.of_nat (S k))); try lia;
          [done|].
        replace (N.to_nat n - S k) with (S (N.to_nat n - S (S k))) by lia. done. }
  pose proof (H 0) as H0. change (N.of_nat 1) with 1%N in H0. rewrite H0.
  destruct (N.eqb_spec n 0), (N.ltb_spec n 1); try lia; done.
Qed.

(** ** The printed attribution *)

(** Line 94: replace every double quote by nothing, then the first colon
    by [:@] (count 1), then every colon by [_]. *)
Definition format_location (s : str) : str :=
  py_replace ":"%char ‹"_"› (-1) (py_replace ":"%char ‹":@"› 1 (py_replace dq [] (-1) s)).

Lemma py_replace_erase_count old count s :
  (count < 0)%Z -> py_replace old [] count s = filter (fun x => x <> old) s.
Proof.
  revert count. induction s as [|x s IH]; intros count Hc; [done|].
  rewrite filter_cons. cbn [py_replace]. destruct (chr_eqb x old) eqn:E.
  - apply chr_eqb_true in E as ->. rewrite decide_False by tauto.
    rewrite (proj2 (Z.eqb_neq _ _)) by lia. apply IH. lia.
  - rewrite decide_True; [by rewrite IH|]. intros ->. by rewrite chr_eqb_refl in E.
Qed.

Lemma py_replace_erase old s :
  py_replace old [] (-1) s = filter (fun x => x <> old) s.
Proof. apply py_replace_erase_count. lia. Qed.

(** C4: Quotes are dropped; then the first colon becomes [:@] and at once,
    with every other colon, [_]: the first colon turns into [_@]. *)
Theorem format_location_spec s a b :
  filter (fun x => x <> dq) s = a ++ ":"%char :: b -> ":"%char ∉ a ->
  format_location s = a ++ ‹"_@"› ++ py_replace ":"%char ‹"_"› (-1) b.
Proof.
  intros Hs Ha. unfold format_location. rewrite py_replace_erase, Hs, py_replace_first by done.
  rewrite !py_replace_all_app, py_replace_absent by done. done.
Qed.

(** The spec's example [x:@1_2] is not what line 94 prints: the second
    [replace] also rewrites the colon the first one inserted. *)
Example format_location_quoted :
  format_location ([dq] ++ ‹"x"› ++ [dq] ++ ‹":1:2"›) = ‹"x_@1_2"›.
Proof. vm_compute. reflexivity. Qed.

Lemma format_location_spec_witness :
  format_location ([dq] ++ ‹"a.py"› ++ [dq] ++ ‹":1:1"›) = ‹"a.py_@1_1"›.
Proof.
  rewrite (format_location_spec _ ‹"a.py"› ‹"1:1"›); [reflexivity|reflexivity|].
  apply (bool_decide_unpack _). vm_compute. exact I.
Defined.

Lemma extract_file_and_line_complete_witness :
  extract_file_and_line ‹"/p/k.ttgir:fn@12"› = Some (‹"/p/k.ttgir"›, py_int ‹"12"›).
Proof.
  apply (extract_file_and_line_complete _ _ ‹":fn@12"›); [reflexivity|done|by repeat constructor|reflexivity|].
  intros i Hi. vm_compute in Hi. do 17 (destruct i as [|i]; [first [lia|reflexivity]|]). lia.
Defined.

Lemma extract_file_and_line_spec_witness :
  exists t d, ‹"/tmp/k.ttgir:fn@42"› = ‹"/tmp/k.ttgir"› ++ t /\ scan_tail t = Some d /\
    42%N = py_int d.
Proof.
  destruct (extract_file_and_line_spec ‹"/tmp/k.ttgir:fn@42"› ‹"/tmp/k.ttgir"› 42%N)
    as (t & d & H1 & H2 & H3 & _); [reflexivity|].
  exists t, d. split_and!; assumption.
Defined.

End FrameAttributor.
