(* ===== verification/Attribution.v ===== *)
(** * The entry point [attribute_ttgir_frame_up] and the cache
      [location_map_cache] (attributer.py, lines 3, 63-68 and 82-95)

    State: the file system ([fs]: path to the file's text, read through
    [py_file_lines] by [open_read]), the global dict [location_map_cache] (path to table), and the
    log [opened] of the paths passed to [open], in order.  [PyM] is the
    state-and-exception monad: an exception stops the computation and
    keeps the state reached, as a Python exception keeps the mutations
    done before it.

    The theorems: a descriptor that is not a [ttgir] frame is returned
    unchanged with no effect; on a miss the file is opened twice and
    parsed once into the cache, on a hit it is opened once and not
    parsed; a line number out of range raises [TypeError] (after filling
    the cache); a missing file raises [FileNotFoundError]; the cache
    agrees with the files as long as no file changes, and goes stale when
    one does; once a file is cached it stays cached and is never parsed
    again.  Under a coherent cache a line is attributed to the last
    definition, in the file, of its marker's reference. *)

From S2P Require Import Prelude PyStr PyIO Regex LocRef LocationTable.
From S2P Require Import LocationResolver LineAttributor FrameAttributor.
Open Scope py_scope.

Module Attribution.
Import LocationTable LineAttributor FrameAttributor.

Record world := mk_world {
  fs : gmap str str;
  location_map_cache : gmap str (gmap str str);
  opened : list str
}.

(** The lines [for line in open(path, 'r')] yields, if the file exists. *)
Definition lines_of (files : gmap str str) (path : str) : option (list str) :=
  py_file_lines <$> files !! path.
Definition file_lines (w : world) (path : str) : option (list str) := lines_of (fs w) path.
Arguments lines_of : simpl never.

Definition PyM (A : Type) : Type := world -> py_res A * world.

Definition ret {A} (a : A) : PyM A := fun w => (Ok a, w).
Definition raise {A} (e : py_exc) : PyM A := fun w => (Raise e, w).
Definition bind {A B} (m : PyM A) (f : A -> PyM B) : PyM B :=
  fun w => match m w with (Ok a, w') => f a w' | (Raise e, w') => (Raise e, w') end.
Definition lift {A} (r : py_res A) : PyM A := fun w => (r, w).

Declare Scope pym_scope.
Delimit Scope pym_scope with pym.
Notation "x <- m ;; k" := (bind m (fun x => k))
  (at level 100, m at next level, right associativity) : pym_scope.
Notation "m ;; k" := (bind m (fun _ => k)) (at level 100, right associativity) : pym_scope.
Open Scope pym_scope.

(** [open(path, 'r')] and reading it through: the path is logged; a
    missing file raises [FileNotFoundError]. *)
Definition open_read (path : str) : PyM (list str) :=
  fun w =>
    let w' := mk_world (fs w) (location_map_cache w) (opened w ++ [path]) in
    match file_lines w path with
    | Some lines => (Ok lines, w')
    | None => (Raise FileNotFoundError, w')
    end.

(** [file_path not in location_map_cache] *)
Definition cache_has (path : str) : PyM bool :=
  fun w => (Ok (bool_decide (is_Some (location_map_cache w !! path))), w).

(** [location_map_cache[file_path] = table] *)
Definition cache_store (path : str) (table : gmap str str) : PyM unit :=
  fun w => (Ok tt, mk_world (fs w) (<[path := table]> (location_map_cache w)) (opened w)).

(** [location_map_cache[file_path]] *)
Definition cache_lookup (path : str) : PyM (gmap str str) :=
  fun w => match location_map_cache w !! path with
           | Some t => (Ok t, w)
           | None => (Raise KeyError, w)
           end.

(** [get_line_from_file(filename, line_number)] (lines 63-68). *)
Definition get_line_from_file (filename : str) (line_number : N) : PyM (option str) :=
  file <- open_read filename ;; ret (find_line file 1 line_number).

(** [attribute_ttgir_frame_up(input_frame)] (lines 82-95). *)
Definition attribute_ttgir_frame_up (input_frame : str) : PyM str :=
  match extract_file_and_line input_frame with
  | Some (file_path, line_number) =>
      if py_truthy (Some file_path) && py_contains file_path ‹"ttgir"› then
        line_content <- get_line_from_file file_path line_number ;;
        cached <- cache_has file_path ;;
        (if cached then ret tt
         else f <- open_read file_path ;; cache_store file_path (parse_location_mappings f)) ;;
        table <- cache_lookup file_path ;;
        s <- lift (get_source_location_from_line line_content table) ;;
        match s with
        | Some s => ret (format_location s)
        | None => raise AttributeError
        end
      else ret input_frame
  | None => ret input_frame
  end.

(** ** Theorems *)

(** A frame attributes when its path contains [ttgir]. *)
Definition ttgir_frame (input_frame file_path : str) (line_number : N) : Prop :=
  extract_file_and_line input_frame = Some (file_path, line_number) /\
  py_contains file_path ‹"ttgir"› = true.

Lemma contains_nonempty s sub : py_contains s sub = true -> sub <> [] -> py_truthy (Some s) = true.
Proof. intros (a & b & ->)%py_contains_spec Hs. destruct a, sub; done. Qed.

(** What an attribution returns, given the file's lines and its table. *)
Definition attribution (lines : list str) (table : gmap str str) (line_number : N) : py_res str :=
  match find_line lines 1 line_number with
  | Some l => Ok (format_location (line_answer l table))
  | None => Raise TypeError
  end.

(** [attribution] fails exactly on a line number out of range, with
    [TypeError]. *)
Lemma attribution_raise lines t n e :
  attribution lines t n = Raise e <-> (n = 0%N \/ length lines < N.to_nat n) /\ e = TypeError.
Proof.
  unfold attribution. rewrite find_line_spec. destruct (N.eqb_spec n 0) as [->|Hn]; [naive_solver|].
  destruct (lines !! (N.to_nat n - 1)) eqn:El.
  - apply lookup_lt_Some in El. split; [done|]. intros [[?|?] _]; lia.
  - apply lookup_ge_None in El. split; [intros [= <-]; split; [right; lia|done]|by intros [_ ->]].
Qed.

(** C9: A descriptor that does not name a [ttgir] file comes back unchanged,
    and nothing is opened or cached. *)
Theorem attribute_not_ttgir input_frame w :
  (forall p n, extract_file_and_line input_frame = Some (p, n) ->
     py_contains p ‹"ttgir"› = false) ->
  attribute_ttgir_frame_up input_frame w = (Ok input_frame, w).
Proof.
  intros H. unfold attribute_ttgir_frame_up.
  destruct (extract_file_and_line input_frame) as [[p n]|] eqn:E; [|done].
  by rewrite (H p n eq_refl), andb_false_r.
Qed.

Lemma attribute_missing_run input_frame p n w :
  ttgir_frame input_frame p n -> file_lines w p = None ->
  attribute_ttgir_frame_up input_frame w =
    (Raise FileNotFoundError, mk_world (fs w) (location_map_cache w) (opened w ++ [p])).
Proof.
  intros [He Hc] Hfs. unfold file_lines in Hfs. unfold attribute_ttgir_frame_up. rewrite He, Hc.
  rewrite (contains_nonempty _ _ Hc) by done. simpl.
  unfold bind at 1, get_line_from_file, bind, open_read, file_lines. simpl. by rewrite Hfs.
Qed.

(** C17: A [ttgir] frame whose file is missing raises [FileNotFoundError] at the
    first [open], which is logged; the cache is untouched. *)
Theorem attribute_missing_file input_frame p n w :
  ttgir_frame input_frame p n -> file_lines w p = None ->
  attribute_ttgir_frame_up input_frame w =
    (Raise FileNotFoundError, mk_world (fs w) (location_map_cache w) (opened w ++ [p])).
Proof. apply attribute_missing_run. Qed.

(** A [ttgir] frame of an existing file: the answer is [attribution] on
    the cached table, the table parsed now on a miss; the file is opened
    once on a hit and twice on a miss; the cache afterwards holds the
    table, also when the line is out of range and the call raises. *)
Lemma attribute_ttgir_run input_frame p n w lines :
  ttgir_frame input_frame p n -> file_lines w p = Some lines ->
  let table := default (parse_location_mappings lines) (location_map_cache w !! p) in
  attribute_ttgir_frame_up input_frame w =
    (attribution lines table n,
     mk_world (fs w) (<[p := table]> (location_map_cache w))
       (opened w ++ [p] ++ if bool_decide (is_Some (location_map_cache w !! p)) then [] else [p])).
Proof.
  intros [He Hc] Hfs. unfold file_lines in Hfs. unfold attribute_ttgir_frame_up. rewrite He, Hc.
  rewrite (contains_nonempty _ _ Hc) by done. simpl.
  unfold bind at 1, get_line_from_file, bind, open_read, file_lines. simpl. rewrite Hfs. unfold ret, cache_has. simpl.
  destruct (location_map_cache w !! p) as [t|] eqn:Ec; simpl.
  - unfold cache_lookup. simpl. rewrite Ec, insert_id by done. unfold attribution, lift.
    destruct (find_line lines 1 n); [|done]. by rewrite get_source_location_answer.
  - unfold cache_store, cache_lookup. simpl. rewrite Hfs. simpl. rewrite lookup_insert_eq, <- app_assoc.
    unfold attribution, lift. destruct (find_line lines 1 n); [|done].
    by rewrite get_source_location_answer.
Qed.

(** C5: A line number of [0] or past the end of the file raises [TypeError]
    (line 47 searches [None]) instead of giving [No location found]; the
    table has been cached before the exception. *)
Theorem attribute_out_of_range input_frame p n w lines :
  ttgir_frame input_frame p n -> file_lines w p = Some lines ->
  (n = 0%N \/ length lines < N.to_nat n) ->
  (attribute_ttgir_frame_up input_frame w).1 = Raise TypeError /\
  is_Some (location_map_cache (attribute_ttgir_frame_up input_frame w).2 !! p).
Proof.
  intros Hf Hfs Hn. rewrite (attribute_ttgir_run _ _ _ _ _ Hf Hfs). simpl.
  rewrite lookup_insert_eq. split; [|done]. by apply attribution_raise.
Qed.

(** C18: A line number in range attributes the stripped line. *)
Theorem attribute_in_range input_frame p n w lines line :
  ttgir_frame input_frame p n -> file_lines w p = Some lines ->
  lines !! (N.to_nat n - 1) = Some line -> n <> 0%N ->
  (attribute_ttgir_frame_up input_frame w).1 =
    Ok (format_location (line_answer (py_strip line)
          (default (parse_location_mappings lines) (location_map_cache w !! p)))).
Proof.
  intros Hf Hfs Hl Hn. rewrite (attribute_ttgir_run _ _ _ _ _ Hf Hfs). simpl.
  unfold attribution. rewrite find_line_spec, Hl. by destruct (N.eqb_spec n 0).
Qed.

(** C26: [get_line_from_file] on a file written line by line, with [\n]
    or with [\r\n] endings: line [n] (from 1) is the [n]-th written
    line, stripped; the line break is never part of the answer. *)
Theorem get_line_from_written_file w p ending ls n b :
  (ending = [nl] \/ ending = [cr; nl]) -> Forall (fun b => nl ∉ b /\ cr ∉ b) ls ->
  fs w !! p = Some (write_lines ending ls) ->
  ls !! (N.to_nat n - 1) = Some b -> n <> 0%N ->
  (get_line_from_file p n w).1 = Ok (Some (py_strip b)).
Proof.
  intros He Hls Hfs Hb Hn.
  unfold get_line_from_file, bind, open_read, file_lines, lines_of. rewrite Hfs. simpl.
  unfold py_file_lines.
  rewrite write_lines_translate by (done || (eapply Forall_impl; [done|]; by intros ? [_ ?])).
  rewrite split_written_lines by (eapply Forall_impl; [done|]; by intros ? [? _]).
  rewrite find_line_spec. destruct (N.eqb_spec n 0); [done|].
  rewrite list_lookup_fmap, Hb. simpl. by rewrite py_strip_snoc_space.
Qed.

(** C27: [get_line_from_file] opens the file (logged) and, when it
    exists, answers the [n]-th line read (counting from 1), stripped, or
    [None] for [0] and for numbers past the end; a missing file raises
    [FileNotFoundError]. *)
Theorem get_line_from_file_spec p n w :
  get_line_from_file p n w =
    (match file_lines w p with
     | Some lines => Ok (if N.eqb n 0 then None else py_strip <$> lines !! (N.to_nat n - 1))
     | None => Raise FileNotFoundError
     end, mk_world (fs w) (location_map_cache w) (opened w ++ [p])).
Proof.
  unfold get_line_from_file, bind, open_read. destruct (file_lines w p) as [lines|]; [|done].
  simpl. by rewrite find_line_spec.
Qed.

(** C8: Two attributions against the same uncached file parse it once: three
    [open]s in all, and the table stays the one parsed first. *)
Theorem attribute_twice_parses_once f1 f2 p n1 n2 w lines :
  ttgir_frame f1 p n1 -> ttgir_frame f2 p n2 -> file_lines w p = Some lines ->
  location_map_cache w !! p = None ->
  let w2 := (attribute_ttgir_frame_up f2 (attribute_ttgir_frame_up f1 w).2).2 in
  opened w2 = opened w ++ [p; p; p] /\
  location_map_cache w2 = <[p := parse_location_mappings lines]> (location_map_cache w).
Proof.
  intros H1 H2 Hfs Hc. rewrite (attribute_ttgir_run _ _ _ _ _ H1 Hfs). simpl. rewrite Hc. simpl.
  rewrite (attribute_ttgir_run _ _ _ _ lines H2) by done. simpl.
  rewrite lookup_insert_eq. simpl. rewrite insert_insert_eq, <- !app_assoc. done.
Qed.

(** ** The cache invariant *)

(** Every cached table is the parse of the file as it is now. *)
Definition cache_coherent (w : world) : Prop :=
  forall p t, location_map_cache w !! p = Some t ->
    exists lines, file_lines w p = Some lines /\ t = parse_location_mappings lines.

Lemma coherent_default w p lines :
  cache_coherent w -> file_lines w p = Some lines ->
  default (parse_location_mappings lines) (location_map_cache w !! p) = parse_location_mappings lines.
Proof.
  intros Hco Hfs. destruct (location_map_cache w !! p) as [t|] eqn:Ec; [|done].
  destruct (Hco _ _ Ec) as (l' & Hl' & ->). simpl. congruence.
Qed.

(** One call of the entry point, whatever the frame. *)
Definition attr_step (w w' : world) : Prop :=
  exists input_frame, w' = (attribute_ttgir_frame_up input_frame w).2.

(** A call, or a change of a file by someone else. *)
Inductive step : world -> world -> Prop :=
| step_attr w w' : attr_step w w' -> step w w'
| step_write w p content :
    step w (mk_world (<[p := content]> (fs w)) (location_map_cache w) (opened w)).

Lemma attr_step_cases w input_frame :
  (attribute_ttgir_frame_up input_frame w).2 = w \/
  (exists p, file_lines w p = None /\ (attribute_ttgir_frame_up input_frame w).2 =
     mk_world (fs w) (location_map_cache w) (opened w ++ [p])) \/
  (exists p n lines, ttgir_frame input_frame p n /\ file_lines w p = Some lines).
Proof.
  destruct (extract_file_and_line input_frame) as [[p n]|] eqn:E.
  - destruct (py_contains p ‹"ttgir"›) eqn:Hc.
    + destruct (file_lines w p) as [lines|] eqn:Hfs.
      * right; right. exists p, n, lines. done.
      * right; left. exists p. split; [done|]. by rewrite (attribute_missing_run _ p n).
    + left. unfold attribute_ttgir_frame_up. by rewrite E, Hc, andb_false_r.
  - left. unfold attribute_ttgir_frame_up. by rewrite E.
Qed.

(** Calls keep the cache coherent with the files. *)
Theorem attr_step_coherent w w' : cache_coherent w -> attr_step w w' -> cache_coherent w'.
Proof.
  intros Hco [f ->].
  destruct (attr_step_cases w f) as [->|[(p & _ & ->)|(p & n & lines & Hf & Hfs)]]; [done|done|].
  rewrite (attribute_ttgir_run _ _ _ _ _ Hf Hfs). intros q t. simpl.
  destruct (decide (q = p)) as [->|Hne].
  - rewrite lookup_insert_eq. intros [= <-]. exists lines. split; [done|].
    by apply coherent_default.
  - rewrite lookup_insert_ne by done. apply Hco.
Qed.

(** C7: Along any run of calls, with no file changing, a coherent cache stays
    coherent; in particular from an empty cache. *)
Corollary runs_coherent w w' :
  cache_coherent w -> rtc attr_step w w' -> cache_coherent w'.
Proof. intros H Hr. induction Hr; eauto using attr_step_coherent. Qed.

(** C1: Under a coherent cache the entry point answers as if it parsed the
    file afresh. *)
Theorem attribute_coherent input_frame p n w lines :
  cache_coherent w -> ttgir_frame input_frame p n -> file_lines w p = Some lines ->
  (attribute_ttgir_frame_up input_frame w).1 = attribution lines (parse_location_mappings lines) n.
Proof.
  intros Hco Hf Hfs. rewrite (attribute_ttgir_run _ _ _ _ _ Hf Hfs). simpl.
  by rewrite coherent_default.
Qed.

(** C28: End to end, under a coherent cache: line [n] of the file is
    attributed to the body of the last definition, in the whole file, of
    the leftmost [loc(#locN)] marker of the stripped line, printed by line
    94 (["unknown"] when the reference has no definition, ["No location
    found"] when the line has no marker). *)
Theorem attribute_last_definition input_frame p n w lines l :
  cache_coherent w -> ttgir_frame input_frame p n -> file_lines w p = Some lines ->
  lines !! (N.to_nat n - 1) = Some l -> n <> 0%N ->
  (attribute_ttgir_frame_up input_frame w).1 =
    Ok (format_location
          (match find_marker (py_strip l) with
           | Some r => default ‹"unknown"› (last_value r (defs lines))
           | None => ‹"No location found"›
           end)).
Proof.
  intros Hco Hf Hfs Hl Hn. rewrite (attribute_ttgir_run _ _ _ _ _ Hf Hfs). simpl.
  rewrite coherent_default by done. unfold attribution. rewrite find_line_spec, Hl.
  destruct (N.eqb_spec n 0); [done|]. simpl. unfold line_answer, py_dict_get.
  destruct (find_marker (py_strip l)); [|done]. by rewrite parse_lookup_last; destruct (last_value _ _).
Qed.

(** ** The entry point as a function of the files

    With a coherent cache the cache is invisible: the answer depends on
    the files only. *)
Definition attribute_pure (files : gmap str str) (input_frame : str) : py_res str :=
  match extract_file_and_line input_frame with
  | Some (file_path, line_number) =>
      if py_truthy (Some file_path) && py_contains file_path ‹"ttgir"› then
        match lines_of files file_path with
        | Some lines => attribution lines (parse_location_mappings lines) line_number
        | None => Raise FileNotFoundError
        end
      else Ok input_frame
  | None => Ok input_frame
  end.

Lemma attribute_result_pure input_frame w :
  cache_coherent w -> (attribute_ttgir_frame_up input_frame w).1 = attribute_pure (fs w) input_frame.
Proof.
  intros Hco. unfold attribute_pure.
  destruct (extract_file_and_line input_frame) as [[p n]|] eqn:E;
    [|by unfold attribute_ttgir_frame_up; rewrite E].
  destruct (py_contains p ‹"ttgir"›) eqn:Hc;
    [|by unfold attribute_ttgir_frame_up; rewrite E, Hc, andb_false_r].
  rewrite (contains_nonempty _ _ Hc) by done. cbn [andb].
  destruct (lines_of (fs w) p) as [lines|] eqn:Hfs.
  - rewrite (attribute_ttgir_run _ p n w lines) by done. simpl. by rewrite coherent_default.
  - by rewrite (attribute_missing_run _ p n).
Qed.

(** The entry point never changes the files. *)
Lemma attribute_fs input_frame w : fs (attribute_ttgir_frame_up input_frame w).2 = fs w.
Proof.
  destruct (attr_step_cases w input_frame) as [->|[(p & _ & ->)|(p & n & lines & Hf & Hfs)]];
    [done|done|].
  by rewrite (attribute_ttgir_run _ _ _ _ _ Hf Hfs).
Qed.

(** ** A well-formedness invariant that survives file changes

    Every cached entry is keyed by a [ttgir] path and holds a
    well-formed table.  Unlike coherence this holds whatever happens to
    the files, since a change of a file does not touch the cache. *)
Definition cache_wf (w : world) : Prop :=
  forall p t, location_map_cache w !! p = Some t ->
    py_contains p ‹"ttgir"› = true /\ table_wf t.

Lemma attr_step_wf w w' : cache_wf w -> attr_step w w' -> cache_wf w'.
Proof.
  intros Hwf [f ->].
  destruct (attr_step_cases w f) as [->|[(p & _ & ->)|(p & n & lines & Hf & Hfs)]]; [done|done|].
  rewrite (attribute_ttgir_run _ _ _ _ _ Hf Hfs). intros q t. simpl.
  destruct (decide (q = p)) as [->|Hne].
  - rewrite lookup_insert_eq. intros [= <-]. split; [apply Hf|].
    destruct (location_map_cache w !! p) eqn:Ec; simpl; [by apply (Hwf p)|apply parse_table_wf].
  - rewrite lookup_insert_ne by done. apply Hwf.
Qed.

(** C21: Along any run of calls and file changes, every cached table is
    keyed by a [ttgir] path, maps location references only, and holds
    line-break-free expressions. *)
Theorem steps_cache_wf w w' : cache_wf w -> rtc step w w' -> cache_wf w'.
Proof.
  intros H Hr. induction Hr as [|w1 w2 w3 Hs _ IH]; [done|]. apply IH.
  destruct Hs as [w1 w2 Hs|w1 p lines]; [by eapply attr_step_wf|done].
Qed.

(** ** Every exception the entry point can raise *)

(** C25: A call raises exactly in two cases: the descriptor names a
    [ttgir] file that does not exist ([FileNotFoundError] from [open]), or
    one that exists but has no line of that number ([TypeError] from
    [re.search(None)]).  The [AttributeError] of [None.replace] and the
    [KeyError] of the cache lookup never happen. *)
Theorem attribute_raises f w e :
  (attribute_ttgir_frame_up f w).1 = Raise e <->
  exists p n, ttgir_frame f p n /\
    ((file_lines w p = None /\ e = FileNotFoundError) \/
     (exists lines, file_lines w p = Some lines /\
        (n = 0%N \/ length lines < N.to_nat n) /\ e = TypeError)).
Proof.
  split.
  - destruct (extract_file_and_line f) as [[p n]|] eqn:E;
      [|by unfold attribute_ttgir_frame_up; rewrite E].
    destruct (py_contains p ‹"ttgir"›) eqn:Hc;
      [|by unfold attribute_ttgir_frame_up; rewrite E, Hc, andb_false_r].
    assert (ttgir_frame f p n) as Hf by done.
    destruct (file_lines w p) as [lines|] eqn:Hfs.
    + rewrite (attribute_ttgir_run _ _ _ _ _ Hf Hfs). simpl. intros H%attribution_raise.
      exists p, n. split; [done|]. right. by exists lines.
    + rewrite (attribute_missing_run _ _ _ _ Hf Hfs). simpl. intros [= <-].
      exists p, n. split; [done|]. by left.
  - intros (p & n & Hf & [[Hfs ->]|(lines & Hfs & Hn & ->)]).
    + by rewrite (attribute_missing_run _ _ _ _ Hf Hfs).
    + rewrite (attribute_ttgir_run _ _ _ _ _ Hf Hfs). simpl. by apply attribution_raise.
Qed.

(** ** Once cached, cached for good *)

Lemma attr_step_keeps_cached w w' p :
  attr_step w w' -> is_Some (location_map_cache w !! p) -> is_Some (location_map_cache w' !! p).
Proof.
  intros [f ->] Hp.
  destruct (attr_step_cases w f) as [->|[(q & _ & ->)|(q & n & lines & Hf & Hfs)]]; [done|done|].
  rewrite (attribute_ttgir_run _ _ _ _ _ Hf Hfs). simpl.
  destruct (decide (p = q)) as [->|Hne]; [by rewrite lookup_insert_eq|by rewrite lookup_insert_ne].
Qed.

(** Nothing removes a cache entry: not a call, not a change of a file. *)
Lemma steps_keep_cached w w' p :
  rtc step w w' -> is_Some (location_map_cache w !! p) -> is_Some (location_map_cache w' !! p).
Proof.
  induction 1 as [|w1 w2 w3 Hs _ IH]; [done|]. intros Hp. apply IH.
  destruct Hs as [w1 w2 Hs|w1 q content]; [by eapply attr_step_keeps_cached|done].
Qed.

Lemma cached_after_call f p n w lines :
  ttgir_frame f p n -> file_lines w p = Some lines ->
  is_Some (location_map_cache (attribute_ttgir_frame_up f w).2 !! p).
Proof. intros Hf Hfs. rewrite (attribute_ttgir_run _ _ _ _ _ Hf Hfs). simpl. by rewrite lookup_insert_eq. Qed.

(** C22: A call on a [ttgir] frame of an existing file leads to a state
    from which its table is cached in every state reached afterwards, by
    calls and by changes of files alike: eventually and forever cached. *)
Theorem attribute_caches_forever f p n w lines w' :
  ttgir_frame f p n -> file_lines w p = Some lines ->
  rtc step (attribute_ttgir_frame_up f w).2 w' -> is_Some (location_map_cache w' !! p).
Proof. intros Hf Hfs Hr. apply (steps_keep_cached _ _ _ Hr). by apply (cached_after_call f p n w lines). Qed.

(** C23: After the first call on a file, every later call on it, after
    any calls and file changes, opens it once (to read the line) and never
    again to parse it. *)
Theorem attribute_never_reparses f p n w lines w' f2 n2 lines2 :
  ttgir_frame f p n -> file_lines w p = Some lines ->
  rtc step (attribute_ttgir_frame_up f w).2 w' ->
  ttgir_frame f2 p n2 -> file_lines w' p = Some lines2 ->
  opened (attribute_ttgir_frame_up f2 w').2 = opened w' ++ [p].
Proof.
  intros Hf Hfs Hr Hf2 Hfs2.
  pose proof (steps_keep_cached _ _ p Hr (cached_after_call f p n w lines Hf Hfs)) as Hc.
  rewrite (attribute_ttgir_run _ _ _ _ _ Hf2 Hfs2). simpl.
  by rewrite bool_decide_eq_true_2.
Qed.

(** ** Examples *)

(** A small [.ttgir] file: three definitions (the third a callsite) and
    two operations with markers; lines end with a line feed, as the file
    iterator yields them. *)
Definition sample_path : str := ‹"/tmp/k.ttgir"›.
Definition sample_lines : list str :=
  [ ‹"#loc1 = loc("› ++ [dq] ++ ‹"a.py"› ++ [dq] ++ ‹":1:1)"› ++ [nl];
    ‹"#loc2 = loc("› ++ [dq] ++ ‹"b.py"› ++ [dq] ++ ‹":2:2)"› ++ [nl];
    ‹"#loc3 = loc(callsite(#loc1 at #loc2))"› ++ [nl];
    ‹"  %0 = arith.constant 0 : i32 loc(#loc3)"› ++ [nl];
    ‹"  tt.return loc(#loc1)"› ++ [nl] ].
Definition sample_world : world := mk_world {[sample_path := mjoin sample_lines]} ∅ [].

Lemma attribute_not_ttgir_witness :
  attribute_ttgir_frame_up ‹"/tmp/k.py:fn@4"› sample_world = (Ok ‹"/tmp/k.py:fn@4"›, sample_world).
Proof.
  apply attribute_not_ttgir. intros p n H. vm_compute in H. injection H as <- <-. reflexivity.
Defined.

Lemma attribute_missing_file_witness :
  attribute_ttgir_frame_up ‹"/tmp/m.ttgir:fn@4"› sample_world =
    (Raise FileNotFoundError, mk_world (fs sample_world) ∅ [‹"/tmp/m.ttgir"›]).
Proof. apply (attribute_missing_file _ ‹"/tmp/m.ttgir"› 4%N); [split|]; reflexivity. Defined.

Lemma attribute_sample_answer :
  (attribute_ttgir_frame_up ‹"/tmp/k.ttgir:fn@5"› sample_world).1 =
    Ok (‹"a.py_@1_1"›).
Proof.
  rewrite (attribute_ttgir_run _ sample_path 5%N _ sample_lines); [|split; reflexivity|reflexivity].
  vm_compute. reflexivity.
Defined.

Lemma attribute_out_of_range_witness :
  (attribute_ttgir_frame_up ‹"/tmp/k.ttgir:fn@9"› sample_world).1 = Raise TypeError.
Proof.
  refine (proj1 (attribute_out_of_range _ sample_path 9%N sample_world sample_lines _ _ _));
    [split; reflexivity|reflexivity|simpl; lia].
Defined.

Lemma attribute_in_range_witness :
  (attribute_ttgir_frame_up ‹"/tmp/k.ttgir:fn@4"› sample_world).1 =
    Ok ‹"callsite(#loc1 at #loc2)"›.
Proof.
  rewrite (attribute_in_range _ sample_path 4%N _ sample_lines
             (‹"  %0 = arith.constant 0 : i32 loc(#loc3)"› ++ [nl]));
    [|split; reflexivity|reflexivity|reflexivity|lia].
  vm_compute. reflexivity.
Defined.

Lemma attribute_twice_parses_once_witness :
  opened (attribute_ttgir_frame_up ‹"/tmp/k.ttgir:g@5"›
            (attribute_ttgir_frame_up ‹"/tmp/k.ttgir:f@4"› sample_world).2).2
  = [sample_path; sample_path; sample_path].
Proof.
  refine (proj1 (attribute_twice_parses_once _ _ sample_path 4%N 5%N sample_world sample_lines
                   _ _ _ _)); [split; reflexivity|split; reflexivity|reflexivity|reflexivity].
Defined.

Lemma empty_cache_coherent fs0 opened0 : cache_coherent (mk_world fs0 ∅ opened0).
Proof. intros p t H. cbn [location_map_cache] in H. by rewrite lookup_empty in H. Qed.

Lemma runs_coherent_witness :
  cache_coherent (attribute_ttgir_frame_up ‹"/tmp/k.ttgir:f@4"› sample_world).2.
Proof.
  apply (runs_coherent sample_world); [apply empty_cache_coherent|].
  apply rtc_once. by exists ‹"/tmp/k.ttgir:f@4"›.
Defined.

Lemma attribute_coherent_witness :
  (attribute_ttgir_frame_up ‹"/tmp/k.ttgir:f@5"› sample_world).1 =
    attribution sample_lines (parse_location_mappings sample_lines) 5%N.
Proof.
  apply (attribute_coherent _ sample_path); [apply empty_cache_coherent|split; reflexivity|reflexivity].
Defined.

Lemma attribute_last_definition_witness :
  (attribute_ttgir_frame_up ‹"/tmp/k.ttgir:f@5"› sample_world).1 = Ok ‹"a.py_@1_1"›.
Proof.
  rewrite (attribute_last_definition _ sample_path 5%N _ sample_lines (‹"  tt.return loc(#loc1)"› ++ [nl]));
    [|apply empty_cache_coherent|split; reflexivity|reflexivity|reflexivity|lia].
  vm_compute. reflexivity.
Defined.

(** The sample file with its first definition changed. *)
Definition changed_lines : list str :=
  (‹"#loc1 = loc("› ++ [dq] ++ ‹"c.py"› ++ [dq] ++ ‹":9:9)"› ++ [nl]) :: tail sample_lines.

(** The cache is never invalidated: after the file changes, a frame is
    still attributed from the old table (here [a.py], where the file now
    says [c.py]), and the cache is no longer coherent. *)
Example cache_goes_stale :
  let w1 := (attribute_ttgir_frame_up ‹"/tmp/k.ttgir:f@5"› sample_world).2 in
  let w2 := mk_world (<[sample_path := mjoin changed_lines]> (fs w1)) (location_map_cache w1) (opened w1) in
  step w1 w2 /\ ~ cache_coherent w2 /\
  (attribute_ttgir_frame_up ‹"/tmp/k.ttgir:f@5"› w2).1 = Ok ‹"a.py_@1_1"› /\
  attribution changed_lines (parse_location_mappings changed_lines) 5%N = Ok ‹"c.py_@9_9"›.
Proof.
  rewrite (attribute_ttgir_run _ sample_path 5%N _ sample_lines) by (try split; reflexivity).
  cbv zeta. split_and!.
  - apply step_write.
  - intros Hco. cbn [fst snd location_map_cache fs] in Hco.
    destruct (Hco sample_path (parse_location_mappings sample_lines)) as (l & Hl & Heq).
    + cbn [location_map_cache sample_world]. by rewrite lookup_insert_eq.
    + unfold file_lines, lines_of in Hl. cbn [fs sample_world] in Hl.
      rewrite lookup_insert_eq in Hl. injection Hl as <-.
      apply (f_equal (lookup ‹"#loc1"›)) in Heq.
      rewrite !parse_lookup_last in Heq. vm_compute in Heq. discriminate Heq.
  - vm_compute. reflexivity.
  - vm_compute. reflexivity.
Qed.

Lemma empty_cache_wf fs0 opened0 : cache_wf (mk_world fs0 ∅ opened0).
Proof. intros p t H. cbn [location_map_cache] in H. by rewrite lookup_empty in H. Qed.

Lemma steps_cache_wf_witness :
  cache_wf (mk_world (<[sample_path := mjoin changed_lines]> (fs sample_world))
              (location_map_cache (attribute_ttgir_frame_up ‹"/tmp/k.ttgir:f@5"› sample_world).2)
              (opened (attribute_ttgir_frame_up ‹"/tmp/k.ttgir:f@5"› sample_world).2)).
Proof.
  apply (steps_cache_wf sample_world); [apply empty_cache_wf|].
  eapply rtc_l; [apply step_attr; by exists ‹"/tmp/k.ttgir:f@5"›|].
  rewrite <- (attribute_fs ‹"/tmp/k.ttgir:f@5"› sample_world). apply rtc_once, step_write.
Defined.

Lemma attribute_raises_witness :
  (attribute_ttgir_frame_up ‹"/tmp/k.ttgir:f@9"› sample_world).1 = Raise TypeError.
Proof.
  apply attribute_raises. exists sample_path, 9%N. split; [split; reflexivity|].
  right. exists sample_lines. split_and!; [reflexivity|right; simpl; lia|done].
Defined.

Lemma get_line_from_written_file_witness :
  (get_line_from_file sample_path 2
     (mk_world {[sample_path := write_lines [cr; nl] [‹"#loc1 = loc(x)"›; ‹"  y loc(#loc1) "›]]} ∅ [])).1
  = Ok (Some ‹"y loc(#loc1)"›).
Proof.
  rewrite (get_line_from_written_file _ _ [cr; nl] [‹"#loc1 = loc(x)"›; ‹"  y loc(#loc1) "›]
             2 ‹"  y loc(#loc1) "›);
    [reflexivity|by right|repeat constructor; vm_compute; set_solver|reflexivity|reflexivity|lia].
Defined.

Lemma attribute_caches_forever_witness :
  is_Some (location_map_cache
    (mk_world (<[sample_path := mjoin changed_lines]> (fs sample_world))
       (location_map_cache (attribute_ttgir_frame_up ‹"/tmp/k.ttgir:f@5"› sample_world).2)
       (opened (attribute_ttgir_frame_up ‹"/tmp/k.ttgir:f@5"› sample_world).2)) !! sample_path).
Proof.
  apply (attribute_caches_forever ‹"/tmp/k.ttgir:f@5"› sample_path 5%N sample_world sample_lines);
    [split; reflexivity|reflexivity|].
  rewrite <- (attribute_fs ‹"/tmp/k.ttgir:f@5"› sample_world). apply rtc_once, step_write.
Defined.

Lemma attribute_never_reparses_witness :
  opened (attribute_ttgir_frame_up ‹"/tmp/k.ttgir:g@4"›
            (attribute_ttgir_frame_up ‹"/tmp/k.ttgir:f@5"› sample_world).2).2 =
  [sample_path; sample_path; sample_path].
Proof.
  rewrite (attribute_never_reparses ‹"/tmp/k.ttgir:f@5"› sample_path 5%N sample_world sample_lines
             _ ‹"/tmp/k.ttgir:g@4"› 4%N sample_lines);
    [reflexivity|split; reflexivity|reflexivity|apply rtc_refl|split; reflexivity|reflexivity].
Defined.

End Attribution.
