(* ===== verification/WorldEquiv.v ===== *)
(** * Worlds equal up to what the program can observe

    [attribute_ttgir_frame_up] sees a file only through the lines that
    iterating over [open(path, 'r')] yields, and it never reads the log of
    the paths it opened.  Two file systems are equivalent ([files_equiv])
    when every path reads back the same lines, whatever its text: a file
    with [\r\n] line endings and the same file with [\n] ones are
    equivalent.  Two worlds are equivalent ([world_equiv]) when their file
    systems are and their caches are equal, whatever their logs.

    Both are [Equivalence]s, coarser than equality.  The entry point and
    the monad's operations are [Proper] for them: equivalent worlds give
    the same answer and equivalent worlds ([attribute_ttgir_frame_up_proper],
    [bind_proper]).  Consequence: a file's line-ending convention does not
    change any attribution ([attribute_line_endings]). *)

From S2P Require Import Prelude PyStr PyIO Regex LocRef LocationTable.
From S2P Require Import LocationResolver LineAttributor FrameAttributor Attribution.
From Stdlib Require Import Morphisms.
Open Scope py_scope.

Module WorldEquiv.
Import Attribution FrameAttributor.
Open Scope pym_scope.

(** ** The equivalences *)

Definition files_equiv (f1 f2 : gmap str str) : Prop := forall p, lines_of f1 p = lines_of f2 p.

Definition world_equiv (w1 w2 : world) : Prop :=
  files_equiv (fs w1) (fs w2) /\ location_map_cache w1 = location_map_cache w2.

(** Two outcomes of a computation: the same value, equivalent worlds. *)
Definition res_equiv {A} (r1 r2 : py_res A * world) : Prop := r1.1 = r2.1 /\ world_equiv r1.2 r2.2.

#[export] Instance files_equiv_equivalence : Equivalence files_equiv.
Proof.
  split.
  - intros f p. done.
  - intros f1 f2 H p. by rewrite H.
  - intros f1 f2 f3 H1 H2 p. by rewrite H1, H2.
Qed.

#[export] Instance world_equiv_equivalence : Equivalence world_equiv.
Proof.
  split.
  - done.
  - intros w1 w2 [H1 H2]. split; by symmetry.
  - intros w1 w2 w3 [H1 H2] [H3 H4]. split; by etransitivity.
Qed.

#[export] Instance res_equiv_equivalence {A} : Equivalence (@res_equiv A).
Proof.
  split.
  - done.
  - intros r1 r2 [H1 H2]. split; by symmetry.
  - intros r1 r2 r3 [H1 H2] [H3 H4]. split; by etransitivity.
Qed.

(** ** The monad respects them *)

Lemma file_lines_equiv w1 w2 p : world_equiv w1 w2 -> file_lines w1 p = file_lines w2 p.
Proof. intros [H _]. apply H. Qed.

#[export] Instance ret_proper {A} (a : A) : Proper (world_equiv ==> res_equiv) (ret a).
Proof. intros w1 w2 H. by split. Qed.

#[export] Instance bind_proper {A B} (m : PyM A) (k : A -> PyM B) :
  Proper (world_equiv ==> res_equiv) m ->
  (forall a, Proper (world_equiv ==> res_equiv) (k a)) ->
  Proper (world_equiv ==> res_equiv) (bind m k).
Proof.
  intros Hm Hk w1 w2 Hw. unfold bind. destruct (Hm w1 w2 Hw) as [H1 H2].
  destruct (m w1) as [[a|e] w1'], (m w2) as [[a'|e'] w2']; simplify_eq/=; [by apply Hk|by split].
Qed.

(** The entry point answers alike on equivalent worlds, and leaves
    equivalent worlds. *)
#[export] Instance attribute_ttgir_frame_up_proper :
  Proper (eq ==> world_equiv ==> res_equiv) attribute_ttgir_frame_up.
Proof.
  intros f ? <- w1 w2 Hw. pose proof Hw as [Hfs Hc].
  destruct (extract_file_and_line f) as [[p n]|] eqn:E;
    [|by unfold attribute_ttgir_frame_up; rewrite E].
  destruct (py_contains p ‹"ttgir"›) eqn:Hct;
    [|by unfold attribute_ttgir_frame_up; rewrite E, Hct, andb_false_r].
  assert (ttgir_frame f p n) as Hf by done.
  destruct (file_lines w1 p) as [lines|] eqn:H1; pose proof H1 as H2;
    rewrite (file_lines_equiv _ _ _ Hw) in H2.
  - rewrite (attribute_ttgir_run _ _ _ _ _ Hf H1), (attribute_ttgir_run _ _ _ _ _ Hf H2), Hc.
    split; [done|]. split; [apply Hfs|done].
  - rewrite (attribute_missing_run _ _ _ _ Hf H1), (attribute_missing_run _ _ _ _ Hf H2), Hc.
    split; [done|]. split; [apply Hfs|done].
Qed.

(** ** Line endings *)

Lemma files_equiv_crlf files p ls :
  Forall (fun b => cr ∉ b) ls ->
  files_equiv (<[p := write_lines [cr; nl] ls]> files) (<[p := write_lines [nl] ls]> files).
Proof.
  intros Hls q. unfold lines_of. destruct (decide (q = p)) as [->|Hne].
  - rewrite !lookup_insert_eq. simpl. unfold py_file_lines.
    by rewrite !write_lines_translate by auto.
  - by rewrite !lookup_insert_ne.
Qed.

(** Whether a file was written with [\r\n] or with [\n] line endings
    (lines without a carriage return), every call of the entry point gives
    the same answer and the same cache, whatever was opened before. *)
Theorem attribute_line_endings files p ls cache o1 o2 input_frame :
  Forall (fun b => cr ∉ b) ls ->
  res_equiv (attribute_ttgir_frame_up input_frame
               (mk_world (<[p := write_lines [cr; nl] ls]> files) cache o1))
            (attribute_ttgir_frame_up input_frame
               (mk_world (<[p := write_lines [nl] ls]> files) cache o2)).
Proof. intros Hls. apply attribute_ttgir_frame_up_proper; [done|]. by split; [apply files_equiv_crlf|]. Qed.

End WorldEquiv.
